(** * ATM controller: session state machine, ledger and cash hardware

    A shallow embedding of [atm_controller.py].  Python [int] is [Z], [str] is
    [string], [Optional[str]] is [option string], and the account dictionaries
    [{"number", "name", "balance"}] are records.  The two collaborators of the
    controller (the bank ledger and the cash hardware) are interfaces; their
    implementations carry a state of their own, which every method may read
    and replace.  A controller method is a function from the world (the
    controller's fields, the ledger, the hardware) to its return value, the
    new world, and the list of collaborator calls it made, in program order. *)

From Stdlib Require Import String ZArith List Bool Lia.
Import ListNotations.

Local Open Scope string_scope.
Local Open Scope Z_scope.
Local Open Scope list_scope.

(** ** Enumerations and records *)

Inductive TransactionType : Type :=
| BALANCE_INQUIRY
| WITHDRAWAL
| DEPOSIT.

Inductive ATMState : Type :=
| IDLE
| CARD_INSERTED
| PIN_VERIFIED
| ACCOUNT_SELECTED
| TRANSACTION_COMPLETED.

(** [==] and [!=] on [ATMState] members. *)
Definition ATMState_eqb (a b : ATMState) : bool :=
  match a, b with
  | IDLE, IDLE
  | CARD_INSERTED, CARD_INSERTED
  | PIN_VERIFIED, PIN_VERIFIED
  | ACCOUNT_SELECTED, ACCOUNT_SELECTED
  | TRANSACTION_COMPLETED, TRANSACTION_COMPLETED => true
  | _, _ => false
  end.

(** An account as the ledger lists it: [{"number": .., "name": .., "balance": ..}]. *)
Record Account : Type := mkAccount {
  number : string;
  name : string;
  balance : Z
}.

(** One entry of [transaction_history]; the keys ["type"], ["account"],
    ["amount"], ["success"] carry the prefix [tx_]. *)
Record TransactionRecord : Type := mkTx {
  tx_type : TransactionType;
  tx_account : string;
  tx_amount : Z;
  tx_success : bool
}.

(** Python truthiness of an [Optional[str]]: [not x] holds for [None] and for
    the empty string. *)
Definition py_not (x : option string) : bool :=
  match x with
  | None => true
  | Some s => (s =? "")%string
  end.

(** The string held by an optional field that a guard has found truthy. *)
Definition value_of (x : option string) : string :=
  match x with
  | Some s => s
  | None => ""
  end.

(** ** The two abstract interfaces

    Each abstract method takes the implementation's state and returns its
    answer with the state it leaves. *)

Module BankSystemInterface.
Class t (B : Type) : Type := {
  verify_pin : string -> string -> B -> bool * B;
  get_accounts : string -> B -> list Account * B;
  get_balance : string -> B -> Z * B;
  withdraw : string -> Z -> B -> bool * B;
  deposit : string -> Z -> B -> bool * B
}.
End BankSystemInterface.

Module HardwareInterface.
Class t (H : Type) : Type := {
  read_card : H -> option string * H;
  eject_card : H -> bool * H;
  dispense_cash : Z -> H -> bool * H;
  accept_cash : H -> Z * H
}.
End HardwareInterface.

(** ** MockBankSystem *)

Module MockBankSystem.

(** The value stored under a card number: [{"pin": .., "accounts": [..]}]. *)
Record CardData : Type := mkCard {
  pin : string;
  accounts : list Account
}.

(** [self.accounts]: a dict keyed by card number.  [values()] iterates in
    insertion order and the methods stop at the first match, so the dict is
    an association list in insertion order. *)
Definition state : Type := list (string * CardData).

Definition init : state :=
  [ ("1234567890",
     {| pin := "1234";
        accounts := [ {| number := "1001"; name := "Checking"; balance := 1000 |};
                      {| number := "1002"; name := "Savings"; balance := 5000 |} ] |});
    ("0987654321",
     {| pin := "4321";
        accounts := [ {| number := "2001"; name := "Checking"; balance := 2500 |} ] |}) ].

(** [self.accounts[card_number]], when [card_number in self.accounts]. *)
Fixpoint lookup (card_number : string) (d : state) : option CardData :=
  match d with
  | [] => None
  | (k, v) :: rest => if (k =? card_number)%string then Some v else lookup card_number rest
  end.

Definition verify_pin (card_number p : string) (d : state) : bool * state :=
  match lookup card_number d with
  | Some cd => ((pin cd =? p)%string, d)
  | None => (false, d)
  end.

Definition get_accounts (card_number : string) (d : state) : list Account * state :=
  match lookup card_number d with
  | Some cd => (accounts cd, d)
  | None => ([], d)
  end.

(** The inner loop of [get_balance] over one card's accounts. *)
Fixpoint balance_in (account_number : string) (l : list Account) : option Z :=
  match l with
  | [] => None
  | account :: rest =>
      if (number account =? account_number)%string then Some (balance account)
      else balance_in account_number rest
  end.

(** The outer loop of [get_balance] over [self.accounts.values()]. *)
Fixpoint balance_of (account_number : string) (d : state) : option Z :=
  match d with
  | [] => None
  | (_, card_data) :: rest =>
      match balance_in account_number (accounts card_data) with
      | Some b => Some b
      | None => balance_of account_number rest
      end
  end.

Definition get_balance (account_number : string) (d : state) : Z * state :=
  match balance_of account_number d with
  | Some b => (b, d)
  | None => (0, d)
  end.

Definition set_balance (b : Z) (account : Account) : Account :=
  {| number := number account; name := name account; balance := b |}.

Definition set_accounts (l : list Account) (cd : CardData) : CardData :=
  {| pin := pin cd; accounts := l |}.

(** The inner loop of [withdraw]: the first account with the number and with
    enough balance is debited and the method returns; a matching account
    with too little balance does not stop the loop.  [None]: the loop ran
    to its end. *)
Fixpoint debit_in (account_number : string) (amount : Z) (l : list Account)
  : option (list Account) :=
  match l with
  | [] => None
  | account :: rest =>
      if (number account =? account_number)%string then
        if balance account >=? amount then
          Some (set_balance (balance account - amount) account :: rest)
        else option_map (cons account) (debit_in account_number amount rest)
      else option_map (cons account) (debit_in account_number amount rest)
  end.

Fixpoint debit (account_number : string) (amount : Z) (d : state) : option state :=
  match d with
  | [] => None
  | (card, card_data) :: rest =>
      match debit_in account_number amount (accounts card_data) with
      | Some l => Some ((card, set_accounts l card_data) :: rest)
      | None => option_map (cons (card, card_data)) (debit account_number amount rest)
      end
  end.

Definition withdraw (account_number : string) (amount : Z) (d : state) : bool * state :=
  if amount <=? 0 then (false, d)
  else match debit account_number amount d with
       | Some d' => (true, d')
       | None => (false, d)
       end.

(** The inner loop of [deposit]: the first account with the number is
    credited. *)
Fixpoint credit_in (account_number : string) (amount : Z) (l : list Account)
  : option (list Account) :=
  match l with
  | [] => None
  | account :: rest =>
      if (number account =? account_number)%string then
        Some (set_balance (balance account + amount) account :: rest)
      else option_map (cons account) (credit_in account_number amount rest)
  end.

Fixpoint credit (account_number : string) (amount : Z) (d : state) : option state :=
  match d with
  | [] => None
  | (card, card_data) :: rest =>
      match credit_in account_number amount (accounts card_data) with
      | Some l => Some ((card, set_accounts l card_data) :: rest)
      | None => option_map (cons (card, card_data)) (credit account_number amount rest)
      end
  end.

Definition deposit (account_number : string) (amount : Z) (d : state) : bool * state :=
  if amount <=? 0 then (false, d)
  else match credit account_number amount d with
       | Some d' => (true, d')
       | None => (false, d)
       end.

#[global] Instance interface : BankSystemInterface.t state := {
  BankSystemInterface.verify_pin := verify_pin;
  BankSystemInterface.get_accounts := get_accounts;
  BankSystemInterface.get_balance := get_balance;
  BankSystemInterface.withdraw := withdraw;
  BankSystemInterface.deposit := deposit
}.

(** Every account number of the ledger, in iteration order. *)
Definition numbers_in (l : list Account) : list string := map number l.

Definition all_numbers (d : state) : list string :=
  flat_map (fun entry => numbers_in (accounts (snd entry))) d.

Fixpoint distinct (l : list string) : bool :=
  match l with
  | [] => true
  | x :: rest => negb (existsb (String.eqb x) rest) && distinct rest
  end.

(** No account number occurs twice in the ledger, as in [init]. *)
Definition unique_numbers (d : state) : bool := distinct (all_numbers d).

End MockBankSystem.

(** ** MockHardware *)

Module MockHardware.

Record state : Type := mkHw {
  card_inserted : bool;
  card_number : option string
}.

Definition init : state := {| card_inserted := false; card_number := None |}.

Definition read_card (h : state) : option string * state :=
  (if card_inserted h then card_number h else None, h).

Definition eject_card (h : state) : bool * state :=
  (true, {| card_inserted := false; card_number := None |}).

Definition dispense_cash (amount : Z) (h : state) : bool * state :=
  (amount >? 0, h).

Definition accept_cash (h : state) : Z * state := (100, h).

#[global] Instance interface : HardwareInterface.t state := {
  HardwareInterface.read_card := read_card;
  HardwareInterface.eject_card := eject_card;
  HardwareInterface.dispense_cash := dispense_cash;
  HardwareInterface.accept_cash := accept_cash
}.

End MockHardware.

(** ** Calls, worlds and the method monad *)

(** A call the controller makes on a collaborator, with its arguments and the
    answer it got. *)
Inductive Call : Type :=
| CallVerifyPin (card_number pin : string) (answer : bool)
| CallGetAccounts (card_number : string) (answer : list Account)
| CallGetBalance (account_number : string) (answer : Z)
| CallWithdraw (account_number : string) (amount : Z) (answer : bool)
| CallDeposit (account_number : string) (amount : Z) (answer : bool)
| CallEjectCard (answer : bool)
| CallDispenseCash (amount : Z) (answer : bool)
| CallAcceptCash (answer : Z).

(** A call on the hardware, as opposed to one on the ledger. *)
Definition is_hardware_call (c : Call) : bool :=
  match c with
  | CallEjectCard _ | CallDispenseCash _ _ | CallAcceptCash _ => true
  | _ => false
  end.

Module ATMController.

(** The fields [__init__] sets, but for the two collaborators, which live in
    the world. *)
Record t : Type := mkATM {
  state : ATMState;
  current_card : option string;
  selected_account : option string;
  transaction_history : list TransactionRecord
}.

Definition init : t :=
  {| state := IDLE;
     current_card := None;
     selected_account := None;
     transaction_history := [] |}.

(** The controller with [self.bank_system] and [self.hardware]. *)
Record World (B H : Type) : Type := mkWorld {
  atm : t;
  bank_system : B;
  hardware : H
}.
Arguments mkWorld {B H} _ _ _.
Arguments atm {B H} _.
Arguments bank_system {B H} _.
Arguments hardware {B H} _.

(** What one run of a method gives: the returned value, the world it leaves
    and the calls it made on the collaborators, oldest first. *)
Record Run (W A : Type) : Type := mkRun {
  result : A;
  after : W;
  trace : list Call
}.
Arguments mkRun {W A} _ _ _.
Arguments result {W A} _.
Arguments after {W A} _.
Arguments trace {W A} _.

Definition M (W A : Type) : Type := W -> Run W A.

Definition ret {W A : Type} (a : A) : M W A := fun w => mkRun a w [].

Definition bind {W A C : Type} (m : M W A) (k : A -> M W C) : M W C :=
  fun w =>
    let r := m w in
    let r' := k (result r) (after r) in
    mkRun (result r') (after r') (trace r ++ trace r').

Declare Scope atm_scope.
Delimit Scope atm_scope with atm.
Notation "x <- m ;; k" := (bind m (fun x => k))
  (at level 61, m at next level, right associativity) : atm_scope.
Notation "m ;; k" := (bind m (fun _ => k))
  (at level 61, right associativity) : atm_scope.
Local Open Scope atm_scope.

Section Methods.

Context {B H : Type}.
Context {bank : BankSystemInterface.t B} {hw : HardwareInterface.t H}.

#[local] Abbreviation W := (World B H).

(** Reads and writes of the controller's own fields. *)
Definition get_self : M W t := fun w => mkRun (atm w) w [].

Definition put_self (c : t) : M W unit :=
  fun w => mkRun tt (mkWorld c (bank_system w) (hardware w)) [].

Definition set_state (s : ATMState) : M W unit :=
  fun w => put_self (mkATM s (current_card (atm w)) (selected_account (atm w))
                       (transaction_history (atm w))) w.

Definition set_current_card (c : option string) : M W unit :=
  fun w => put_self (mkATM (state (atm w)) c (selected_account (atm w))
                       (transaction_history (atm w))) w.

Definition set_selected_account (a : option string) : M W unit :=
  fun w => put_self (mkATM (state (atm w)) (current_card (atm w)) a
                       (transaction_history (atm w))) w.

(** [self.transaction_history.append(record)]. *)
Definition append_history (record : TransactionRecord) : M W unit :=
  fun w => put_self (mkATM (state (atm w)) (current_card (atm w)) (selected_account (atm w))
                       (transaction_history (atm w) ++ [record])) w.

(** A call on [self.bank_system]: the ledger moves to the state the method
    leaves and the call is recorded. *)
Definition call_bank {A : Type} (method : B -> A * B) (event : A -> Call) : M W A :=
  fun w =>
    let r := method (bank_system w) in
    mkRun (fst r) (mkWorld (atm w) (snd r) (hardware w)) [event (fst r)].

(** A call on [self.hardware]. *)
Definition call_hardware {A : Type} (method : H -> A * H) (event : A -> Call) : M W A :=
  fun w =>
    let r := method (hardware w) in
    mkRun (fst r) (mkWorld (atm w) (bank_system w) (snd r)) [event (fst r)].

Definition bank_verify_pin (card_number pin : string) : M W bool :=
  call_bank (BankSystemInterface.verify_pin card_number pin) (CallVerifyPin card_number pin).

Definition bank_get_accounts (card_number : string) : M W (list Account) :=
  call_bank (BankSystemInterface.get_accounts card_number) (CallGetAccounts card_number).

Definition bank_get_balance (account_number : string) : M W Z :=
  call_bank (BankSystemInterface.get_balance account_number) (CallGetBalance account_number).

Definition bank_withdraw (account_number : string) (amount : Z) : M W bool :=
  call_bank (BankSystemInterface.withdraw account_number amount)
            (CallWithdraw account_number amount).

Definition bank_deposit (account_number : string) (amount : Z) : M W bool :=
  call_bank (BankSystemInterface.deposit account_number amount)
            (CallDeposit account_number amount).

Definition hardware_eject_card : M W bool :=
  call_hardware HardwareInterface.eject_card CallEjectCard.

Definition hardware_dispense_cash (amount : Z) : M W bool :=
  call_hardware (HardwareInterface.dispense_cash amount) (CallDispenseCash amount).

Definition hardware_accept_cash : M W Z :=
  call_hardware HardwareInterface.accept_cash CallAcceptCash.

(** *** The methods of [ATMController] *)

Definition insert_card (card_number : string) : M W bool :=
  self <- get_self ;;
  if negb (ATMState_eqb (state self) IDLE) then ret false
  else
    set_current_card (Some card_number) ;;
    set_state CARD_INSERTED ;;
    ret true.

Definition enter_pin (pin : string) : M W bool :=
  self <- get_self ;;
  if negb (ATMState_eqb (state self) CARD_INSERTED) || py_not (current_card self)
  then ret false
  else
    verified <- bank_verify_pin (value_of (current_card self)) pin ;;
    if verified then
      set_state PIN_VERIFIED ;;
      ret true
    else ret false.

Definition get_available_accounts : M W (list Account) :=
  self <- get_self ;;
  if negb (ATMState_eqb (state self) PIN_VERIFIED) || py_not (current_card self)
  then ret []
  else bank_get_accounts (value_of (current_card self)).

(** The [for account in accounts] loop of [select_account]. *)
Fixpoint select_among (account_number : string) (accounts : list Account) : M W bool :=
  match accounts with
  | [] => ret false
  | account :: rest =>
      if (number account =? account_number)%string then
        set_selected_account (Some account_number) ;;
        set_state ACCOUNT_SELECTED ;;
        ret true
      else select_among account_number rest
  end.

Definition select_account (account_number : string) : M W bool :=
  self <- get_self ;;
  if negb (ATMState_eqb (state self) PIN_VERIFIED) then ret false
  else
    accounts <- get_available_accounts ;;
    select_among account_number accounts.

Definition check_balance : M W (option Z) :=
  self <- get_self ;;
  if negb (ATMState_eqb (state self) ACCOUNT_SELECTED) || py_not (selected_account self)
  then ret None
  else
    balance <- bank_get_balance (value_of (selected_account self)) ;;
    append_history {| tx_type := BALANCE_INQUIRY;
                      tx_account := value_of (selected_account self);
                      tx_amount := 0;
                      tx_success := true |} ;;
    ret (Some balance).

Definition withdraw (amount : Z) : M W (bool * option Z) :=
  self <- get_self ;;
  if negb (ATMState_eqb (state self) ACCOUNT_SELECTED) || py_not (selected_account self)
  then ret (false, None)
  else if amount <=? 0 then ret (false, None)
  else
    debited <- bank_withdraw (value_of (selected_account self)) amount ;;
    success <- (if debited then
                  cash_success <- hardware_dispense_cash amount ;;
                  if negb cash_success then
                    bank_deposit (value_of (selected_account self)) amount ;;
                    ret false
                  else ret debited
                else ret debited) ;;
    append_history {| tx_type := WITHDRAWAL;
                      tx_account := value_of (selected_account self);
                      tx_amount := amount;
                      tx_success := success |} ;;
    if success then
      new_balance <- bank_get_balance (value_of (selected_account self)) ;;
      ret (true, Some new_balance)
    else ret (false, None).

Definition deposit (amount : Z) : M W (bool * option Z) :=
  self <- get_self ;;
  if negb (ATMState_eqb (state self) ACCOUNT_SELECTED) || py_not (selected_account self)
  then ret (false, None)
  else if amount <=? 0 then ret (false, None)
  else
    accepted_amount <- hardware_accept_cash ;;
    let amount := if negb (accepted_amount =? amount) then accepted_amount else amount in
    success <- bank_deposit (value_of (selected_account self)) amount ;;
    append_history {| tx_type := DEPOSIT;
                      tx_account := value_of (selected_account self);
                      tx_amount := amount;
                      tx_success := success |} ;;
    if success then
      new_balance <- bank_get_balance (value_of (selected_account self)) ;;
      ret (true, Some new_balance)
    else ret (false, None).

Definition _reset_state : M W unit :=
  set_state IDLE ;;
  set_current_card None ;;
  set_selected_account None.

Definition eject_card : M W bool :=
  success <- hardware_eject_card ;;
  if success then
    _reset_state ;;
    ret success
  else ret success.

Definition cancel_transaction : M W bool := eject_card.

End Methods.

End ATMController.

(** ** Sequences of operations *)

(** One call of a driver on the controller's exposed surface. *)
Inductive Op : Type :=
| OpInsertCard (card_number : string)
| OpEnterPin (pin : string)
| OpGetAvailableAccounts
| OpSelectAccount (account_number : string)
| OpCheckBalance
| OpWithdraw (amount : Z)
| OpDeposit (amount : Z)
| OpEjectCard
| OpCancelTransaction.

(** What the call returns to the driver. *)
Inductive Response : Type :=
| RBool (b : bool)
| RAccounts (l : list Account)
| RBalance (b : option Z)
| RTransaction (r : bool * option Z).

Section Driver.

Import ATMController.
Local Open Scope atm_scope.

Context {B H : Type}.
Context {bank : BankSystemInterface.t B} {hw : HardwareInterface.t H}.

Definition exec (op : Op) : M (World B H) Response :=
  match op with
  | OpInsertCard card_number => b <- insert_card card_number ;; ret (RBool b)
  | OpEnterPin pin => b <- enter_pin pin ;; ret (RBool b)
  | OpGetAvailableAccounts => l <- get_available_accounts ;; ret (RAccounts l)
  | OpSelectAccount account_number => b <- select_account account_number ;; ret (RBool b)
  | OpCheckBalance => b <- check_balance ;; ret (RBalance b)
  | OpWithdraw amount => r <- withdraw amount ;; ret (RTransaction r)
  | OpDeposit amount => r <- deposit amount ;; ret (RTransaction r)
  | OpEjectCard => b <- eject_card ;; ret (RBool b)
  | OpCancelTransaction => b <- cancel_transaction ;; ret (RBool b)
  end.

(** The world after a driver's calls, made one after the other. *)
Definition run_ops (ops : list Op) (w : World B H) : World B H :=
  fold_left (fun w op => after (exec op w)) ops w.

(** The world [ATMController(bank_system, hardware)] builds. *)
Definition start (b : B) (h : H) : World B H := mkWorld ATMController.init b h.

End Driver.

(** ** The Session's field invariant and the guards of the operations *)

Definition present {A : Type} (x : option A) : Prop := x <> None.

(** [current_card] is present exactly in the three states that follow a card
    insertion, [selected_account] exactly in [ACCOUNT_SELECTED]. *)
Definition session_invariant (c : ATMController.t) : Prop :=
  (present (ATMController.current_card c) <->
     ATMController.state c = CARD_INSERTED \/
     ATMController.state c = PIN_VERIFIED \/
     ATMController.state c = ACCOUNT_SELECTED)
  /\ (present (ATMController.selected_account c) <->
        ATMController.state c = ACCOUNT_SELECTED).

(** The three Session fields, without the transaction log. *)
Definition session (c : ATMController.t) : ATMState * option string * option string :=
  (ATMController.state c, ATMController.current_card c, ATMController.selected_account c).

(** The controller's fields after one operation: either the fields before,
    possibly with a longer log, or one of the four moves of the machine. *)
Inductive moved (c : ATMController.t) : ATMController.t -> Prop :=
| moved_stay log :
    moved c
      (ATMController.mkATM (ATMController.state c) (ATMController.current_card c)
         (ATMController.selected_account c) log)
| moved_insert card_number :
    ATMController.state c = IDLE ->
    moved c
      (ATMController.mkATM CARD_INSERTED (Some card_number)
         (ATMController.selected_account c) (ATMController.transaction_history c))
| moved_verify :
    ATMController.state c = CARD_INSERTED ->
    py_not (ATMController.current_card c) = false ->
    moved c
      (ATMController.mkATM PIN_VERIFIED (ATMController.current_card c)
         (ATMController.selected_account c) (ATMController.transaction_history c))
| moved_select account_number :
    ATMController.state c = PIN_VERIFIED ->
    py_not (ATMController.current_card c) = false ->
    moved c
      (ATMController.mkATM ACCOUNT_SELECTED (ATMController.current_card c)
         (Some account_number) (ATMController.transaction_history c))
| moved_reset :
    moved c (ATMController.mkATM IDLE None None (ATMController.transaction_history c)).

(** The guard of each operation as the transition table and the two
    protocols give it: the state the operation requires and what it needs
    besides (a card, an account, a positive amount).  Ejection and
    cancellation are listed from any state but [IDLE]. *)
Definition precondition (op : Op) (c : ATMController.t) : bool :=
  let st := ATMController.state c in
  match op with
  | OpInsertCard _ => ATMState_eqb st IDLE
  | OpEnterPin _ =>
      ATMState_eqb st CARD_INSERTED && negb (py_not (ATMController.current_card c))
  | OpGetAvailableAccounts | OpSelectAccount _ =>
      ATMState_eqb st PIN_VERIFIED && negb (py_not (ATMController.current_card c))
  | OpCheckBalance =>
      ATMState_eqb st ACCOUNT_SELECTED && negb (py_not (ATMController.selected_account c))
  | OpWithdraw amount | OpDeposit amount =>
      ATMState_eqb st ACCOUNT_SELECTED && negb (py_not (ATMController.selected_account c))
      && (0 <? amount)
  | OpEjectCard | OpCancelTransaction => negb (ATMState_eqb st IDLE)
  end.

(** The failure indicator or empty result of each operation. *)
Definition failure (op : Op) : Response :=
  match op with
  | OpInsertCard _ | OpEnterPin _ | OpSelectAccount _
  | OpEjectCard | OpCancelTransaction => RBool false
  | OpGetAvailableAccounts => RAccounts []
  | OpCheckBalance => RBalance None
  | OpWithdraw _ | OpDeposit _ => RTransaction (false, None)
  end.

Definition is_eject (op : Op) : bool :=
  match op with
  | OpEjectCard | OpCancelTransaction => true
  | _ => false
  end.

(** ** The two transaction protocols, case by case *)

(** The controller's fields with one more record at the end of the log. *)
Definition logged (c : ATMController.t) (record : TransactionRecord) : ATMController.t :=
  ATMController.mkATM (ATMController.state c) (ATMController.current_card c)
    (ATMController.selected_account c) (ATMController.transaction_history c ++ [record]).

(** The guard of [withdraw] and [deposit] lets the call through: the state is
    [ACCOUNT_SELECTED], the selected account is [account_number], a string
    that is not empty, and the amount is positive. *)
Definition guard_passes (c : ATMController.t) (account_number : string) (amount : Z) : Prop :=
  ATMController.state c = ACCOUNT_SELECTED
  /\ ATMController.selected_account c = Some account_number
  /\ account_number <> ""
  /\ 0 < amount.

Section Protocols.

Import ATMController.

Context {B H : Type}.
Context {bank : BankSystemInterface.t B} {hw : HardwareInterface.t H}.

(** The four ways a call of [withdraw] can go. *)
Inductive withdraw_outcome (w : World B H) (amount : Z)
  : Run (World B H) (bool * option Z) -> Prop :=
| withdraw_rejected :
    precondition (OpWithdraw amount) (atm w) = false ->
    withdraw_outcome w amount (mkRun (false, None) w [])
| withdraw_refused account_number b1 :
    guard_passes (atm w) account_number amount ->
    BankSystemInterface.withdraw account_number amount (bank_system w) = (false, b1) ->
    withdraw_outcome w amount
      (mkRun (false, None)
         (mkWorld (logged (atm w) (mkTx WITHDRAWAL account_number amount false))
            b1 (hardware w))
         [CallWithdraw account_number amount false])
| withdraw_dispensed account_number b1 h1 new_balance b2 :
    guard_passes (atm w) account_number amount ->
    BankSystemInterface.withdraw account_number amount (bank_system w) = (true, b1) ->
    HardwareInterface.dispense_cash amount (hardware w) = (true, h1) ->
    BankSystemInterface.get_balance account_number b1 = (new_balance, b2) ->
    withdraw_outcome w amount
      (mkRun (true, Some new_balance)
         (mkWorld (logged (atm w) (mkTx WITHDRAWAL account_number amount true)) b2 h1)
         [CallWithdraw account_number amount true; CallDispenseCash amount true;
          CallGetBalance account_number new_balance])
| withdraw_compensated account_number b1 h1 credited b2 :
    guard_passes (atm w) account_number amount ->
    BankSystemInterface.withdraw account_number amount (bank_system w) = (true, b1) ->
    HardwareInterface.dispense_cash amount (hardware w) = (false, h1) ->
    BankSystemInterface.deposit account_number amount b1 = (credited, b2) ->
    withdraw_outcome w amount
      (mkRun (false, None)
         (mkWorld (logged (atm w) (mkTx WITHDRAWAL account_number amount false)) b2 h1)
         [CallWithdraw account_number amount true; CallDispenseCash amount false;
          CallDeposit account_number amount credited]).

(** The three ways a call of [deposit] can go. *)
Inductive deposit_outcome (w : World B H) (amount : Z)
  : Run (World B H) (bool * option Z) -> Prop :=
| deposit_rejected :
    precondition (OpDeposit amount) (atm w) = false ->
    deposit_outcome w amount (mkRun (false, None) w [])
| deposit_credited account_number accepted_amount h1 b1 new_balance b2 :
    guard_passes (atm w) account_number amount ->
    HardwareInterface.accept_cash (hardware w) = (accepted_amount, h1) ->
    BankSystemInterface.deposit account_number accepted_amount (bank_system w) = (true, b1) ->
    BankSystemInterface.get_balance account_number b1 = (new_balance, b2) ->
    deposit_outcome w amount
      (mkRun (true, Some new_balance)
         (mkWorld (logged (atm w) (mkTx DEPOSIT account_number accepted_amount true)) b2 h1)
         [CallAcceptCash accepted_amount; CallDeposit account_number accepted_amount true;
          CallGetBalance account_number new_balance])
| deposit_refused account_number accepted_amount h1 b1 :
    guard_passes (atm w) account_number amount ->
    HardwareInterface.accept_cash (hardware w) = (accepted_amount, h1) ->
    BankSystemInterface.deposit account_number accepted_amount (bank_system w) = (false, b1) ->
    deposit_outcome w amount
      (mkRun (false, None)
         (mkWorld (logged (atm w) (mkTx DEPOSIT account_number accepted_amount false)) b1 h1)
         [CallAcceptCash accepted_amount; CallDeposit account_number accepted_amount false]).

End Protocols.

(** ** Collaborators other than the two mocks

    The controller takes any implementation of the two interfaces.  These are
    the ones the concrete runs below use where a mock cannot show the case. *)

(** Hardware with fixed answers: whether the card comes out, whether the cash
    comes out, and how much cash the acceptor counts. *)
Module FixedHardware.

Record state : Type := mkFixed {
  ejects : bool;
  dispenses : bool;
  accepts : Z
}.

#[global] Instance interface : HardwareInterface.t state := {
  HardwareInterface.read_card := fun h => (None, h);
  HardwareInterface.eject_card := fun h => (ejects h, h);
  HardwareInterface.dispense_cash := fun _ h => (dispenses h, h);
  HardwareInterface.accept_cash := fun h => (accepts h, h)
}.

End FixedHardware.

(** A ledger that answers as [MockBankSystem] does but refuses every credit. *)
Module DebitOnlyBank.

Record state : Type := mkDebitOnly { ledger : MockBankSystem.state }.

#[global] Instance interface : BankSystemInterface.t state := {
  BankSystemInterface.verify_pin := fun c p d =>
    (fst (MockBankSystem.verify_pin c p (ledger d)), d);
  BankSystemInterface.get_accounts := fun c d =>
    (fst (MockBankSystem.get_accounts c (ledger d)), d);
  BankSystemInterface.get_balance := fun a d =>
    (fst (MockBankSystem.get_balance a (ledger d)), d);
  BankSystemInterface.withdraw := fun a n d =>
    (fst (MockBankSystem.withdraw a n (ledger d)),
     mkDebitOnly (snd (MockBankSystem.withdraw a n (ledger d))));
  BankSystemInterface.deposit := fun _ _ d => (false, d)
}.

End DebitOnlyBank.

(** An account table for [MockBankSystem] whose only account has the empty
    string for its number. *)
Definition unnumbered_ledger : MockBankSystem.state :=
  [ ("5555",
     {| MockBankSystem.pin := "0000";
        MockBankSystem.accounts := [ {| number := ""; name := "Main"; balance := 70 |} ] |}) ].

(** ** Sessions for the concrete runs *)

(** The three calls that bring card 1234567890 to account 1001. *)
Definition to_checking : list Op :=
  [OpInsertCard "1234567890"; OpEnterPin "1234"; OpSelectAccount "1001"].

(** Account 1001 selected on the two mocks. *)
Definition mock_session : ATMController.World MockBankSystem.state MockHardware.state :=
  run_ops to_checking (start MockBankSystem.init MockHardware.init).

(** Account 1001 selected, the mock ledger, and hardware whose dispenser
    gives no cash and whose acceptor counts [accepts]. *)
Definition jammed_session (accepts : Z)
  : ATMController.World MockBankSystem.state FixedHardware.state :=
  run_ops to_checking (start MockBankSystem.init (FixedHardware.mkFixed true false accepts)).

(** Account 1001 selected, a ledger that refuses credits, and the jammed
    dispenser. *)
Definition fatal_session : ATMController.World DebitOnlyBank.state FixedHardware.state :=
  run_ops to_checking
    (start (DebitOnlyBank.mkDebitOnly MockBankSystem.init) (FixedHardware.mkFixed true false 0)).

(** The same controller and hardware in front of a ledger of the same kind
    in which account 1001 holds 50. *)
Definition short_session : ATMController.World DebitOnlyBank.state FixedHardware.state :=
  ATMController.mkWorld (ATMController.atm fatal_session)
    (DebitOnlyBank.mkDebitOnly (snd (MockBankSystem.withdraw "1001" 950 MockBankSystem.init)))
    (ATMController.hardware fatal_session).

(** The account with the empty number, selected on the mock hardware. *)
Definition unnumbered_session : ATMController.World MockBankSystem.state MockHardware.state :=
  run_ops [OpInsertCard "5555"; OpEnterPin "0000"; OpSelectAccount ""]
    (start unnumbered_ledger MockHardware.init).

(** ** Measures of the mock ledger *)

(** Every account of the ledger, in iteration order. *)
Definition ledger_accounts (d : MockBankSystem.state) : list Account :=
  flat_map (fun entry => MockBankSystem.accounts (snd entry)) d.

Definition sum_balances (l : list Account) : Z :=
  fold_right (fun account total => balance account + total) 0 l.

(** The money the ledger holds. *)
Definition ledger_total (d : MockBankSystem.state) : Z := sum_balances (ledger_accounts d).

(** No account is overdrawn. *)
Definition solvent (d : MockBankSystem.state) : bool :=
  forallb (fun account => 0 <=? balance account) (ledger_accounts d).

(** What a debit or a credit leaves alone in an account, and in a card. *)
Definition account_label (account : Account) : string * string :=
  (number account, name account).

Definition card_label (cd : MockBankSystem.CardData) : string * list (string * string) :=
  (MockBankSystem.pin cd, map account_label (MockBankSystem.accounts cd)).

Definition ledger_labels (d : MockBankSystem.state)
  : list (string * (string * list (string * string))) :=
  map (fun entry => (fst entry, card_label (snd entry))) d.

(** ** Steps of the controller, with the calls they make *)

(** A record as the controller writes them: the account is a string that is
    not empty, an inquiry has amount 0 and succeeded, a withdrawal has a
    positive amount. *)
Definition well_formed_record (r : TransactionRecord) : Prop :=
  tx_account r <> ""
  /\ (tx_type r = BALANCE_INQUIRY -> tx_amount r = 0 /\ tx_success r = true)
  /\ (tx_type r = WITHDRAWAL -> 0 < tx_amount r).

(** What one operation does to the controller's fields, with what its calls
    [calls] show of it. *)
Inductive step_kind (c : ATMController.t) (calls : list Call) : ATMController.t -> Prop :=
| step_same :
    step_kind c calls c
| step_logged record :
    ATMController.state c = ACCOUNT_SELECTED ->
    ATMController.selected_account c = Some (tx_account record) ->
    well_formed_record record ->
    step_kind c calls (logged c record)
| step_insert card_number :
    ATMController.state c = IDLE ->
    step_kind c calls
      (ATMController.mkATM CARD_INSERTED (Some card_number)
         (ATMController.selected_account c) (ATMController.transaction_history c))
| step_verify card_number pin :
    ATMController.state c = CARD_INSERTED ->
    ATMController.current_card c = Some card_number ->
    card_number <> "" ->
    In (CallVerifyPin card_number pin true) calls ->
    step_kind c calls
      (ATMController.mkATM PIN_VERIFIED (ATMController.current_card c)
         (ATMController.selected_account c) (ATMController.transaction_history c))
| step_select card_number account_number listed :
    ATMController.state c = PIN_VERIFIED ->
    ATMController.current_card c = Some card_number ->
    card_number <> "" ->
    In (CallGetAccounts card_number listed) calls ->
    In account_number (map number listed) ->
    step_kind c calls
      (ATMController.mkATM ACCOUNT_SELECTED (ATMController.current_card c)
         (Some account_number) (ATMController.transaction_history c))
| step_reset :
    step_kind c calls
      (ATMController.mkATM IDLE None None (ATMController.transaction_history c)).

(** The calls the controller may make in a session: on the ledger, about the
    inserted card or the selected account only, debits of positive amounts
    only; on the dispenser, positive amounts only. *)
Definition call_allowed (c : ATMController.t) (call : Call) : Prop :=
  match call with
  | CallVerifyPin card_number _ _ =>
      ATMController.state c = CARD_INSERTED /\ ATMController.current_card c = Some card_number
  | CallGetAccounts card_number _ =>
      ATMController.state c = PIN_VERIFIED /\ ATMController.current_card c = Some card_number
  | CallGetBalance account_number _ | CallDeposit account_number _ _ =>
      ATMController.state c = ACCOUNT_SELECTED
      /\ ATMController.selected_account c = Some account_number
  | CallWithdraw account_number amount _ =>
      ATMController.state c = ACCOUNT_SELECTED
      /\ ATMController.selected_account c = Some account_number
      /\ 0 < amount
  | CallDispenseCash amount _ => ATMController.state c = ACCOUNT_SELECTED /\ 0 < amount
  | CallAcceptCash _ => ATMController.state c = ACCOUNT_SELECTED
  | CallEjectCard _ => True
  end.

(** What stands behind a session, in the calls made so far: the field
    invariant holds; past [CARD_INSERTED] the ledger has verified a PIN for
    the card now inserted; and the selected account is one the ledger listed
    for that card. *)
Definition session_backed (c : ATMController.t) (past : list Call) : Prop :=
  session_invariant c
  /\ (ATMController.state c = PIN_VERIFIED \/ ATMController.state c = ACCOUNT_SELECTED ->
      exists card_number pin,
        ATMController.current_card c = Some card_number
        /\ card_number <> ""
        /\ In (CallVerifyPin card_number pin true) past)
  /\ (forall account_number,
        ATMController.selected_account c = Some account_number ->
        exists card_number listed,
          ATMController.current_card c = Some card_number
          /\ In (CallGetAccounts card_number listed) past
          /\ In account_number (map number listed)).

Section TracedRuns.

Import ATMController.

Context {B H : Type}.
Context {bank : BankSystemInterface.t B} {hw : HardwareInterface.t H}.

(** The calls a driver's operations make on the collaborators, one operation
    after the other, oldest first. *)
Fixpoint run_calls (ops : list Op) (w : World B H) : list Call :=
  match ops with
  | [] => []
  | op :: rest => trace (exec op w) ++ run_calls rest (after (exec op w))
  end.

End TracedRuns.

(** ** The scenarios of the test file, run on the two mocks *)

Section Scenarios.

Import ATMController.

Example scenario_A : result (check_balance mock_session) = Some 1000.
Proof. reflexivity. Qed.

Example scenario_B : result (withdraw 100 mock_session) = (true, Some 900).
Proof. reflexivity. Qed.

Example scenario_C :
  result (withdraw 2000 (run_ops [OpWithdraw 100] mock_session)) = (false, None)
  /\ result (check_balance (run_ops [OpWithdraw 100; OpWithdraw 2000] mock_session)) = Some 900.
Proof. split; reflexivity. Qed.

Example scenario_D :
  result (deposit 100 (run_ops [OpWithdraw 100; OpWithdraw 2000] mock_session))
  = (true, Some 1000).
Proof. reflexivity. Qed.

Example scenario_E :
  result (enter_pin "wrong"
            (run_ops [OpInsertCard "1234567890"]
               (start MockBankSystem.init MockHardware.init))) = false
  /\ state (atm (run_ops [OpInsertCard "1234567890"; OpEnterPin "wrong"]
                   (start MockBankSystem.init MockHardware.init))) = CARD_INSERTED
  /\ result (eject_card
               (run_ops [OpInsertCard "1234567890"; OpEnterPin "wrong"]
                  (start MockBankSystem.init MockHardware.init))) = true
  /\ state (atm (run_ops [OpInsertCard "1234567890"; OpEnterPin "wrong"; OpEjectCard]
                   (start MockBankSystem.init MockHardware.init))) = IDLE.
Proof. repeat split; reflexivity. Qed.

Example scenario_F :
  enter_pin "1234" (start MockBankSystem.init MockHardware.init) =
    mkRun false (start MockBankSystem.init MockHardware.init) [].
Proof. reflexivity. Qed.

Example test_two_accounts_listed :
  length (result (get_available_accounts
                    (run_ops [OpInsertCard "1234567890"; OpEnterPin "1234"]
                       (start MockBankSystem.init MockHardware.init)))) = 2%nat.
Proof. reflexivity. Qed.

Example test_operations_without_card :
  result (enter_pin "1234" (start MockBankSystem.init MockHardware.init)) = false
  /\ result (select_account "1001" (start MockBankSystem.init MockHardware.init)) = false.
Proof. split; reflexivity. Qed.

End Scenarios.

(** * Properties *)

(** ** Basic facts *)

Lemma ATMState_eqb_eq (a b : ATMState) : ATMState_eqb a b = true <-> a = b.
Proof. destruct a, b; simpl; split; congruence. Qed.

Lemma py_not_false (x : option string) :
  py_not x = false <-> exists s, x = Some s /\ s <> "".
Proof.
  destruct x as [s|]; simpl.
  - rewrite String.eqb_neq. split.
    + intros Hs. exists s. split; [reflexivity | exact Hs].
    + intros [s' [Heq Hs]]. congruence.
  - split; [discriminate | intros [s [Heq _]]; discriminate].
Qed.

Section Generic.

Import ATMController.
Local Open Scope atm_scope.

Context {B H : Type}.
Context {bank : BankSystemInterface.t B} {hw : HardwareInterface.t H}.

#[local] Abbreviation W := (World B H).

(** What the account loop of [select_account] can do: leave everything as it
    is and answer [false], or store the account, move to [ACCOUNT_SELECTED]
    and answer [true].  It calls no collaborator. *)
Lemma select_among_cases (account_number : string) (accounts : list Account) (w : W) :
  select_among account_number accounts w = mkRun false w []
  \/ (In account_number (map number accounts)
      /\ select_among account_number accounts w =
           mkRun true
             (mkWorld (mkATM ACCOUNT_SELECTED (current_card (atm w)) (Some account_number)
                         (transaction_history (atm w)))
                (bank_system w) (hardware w))
             []).
Proof.
  induction accounts as [|account rest IH]; simpl.
  - left. reflexivity.
  - destruct (number account =? account_number)%string eqn:E.
    + right. apply String.eqb_eq in E. split; [left; exact E | reflexivity].
    + destruct IH as [IH | [Hin IH]]; [left; exact IH | right].
      split; [right; exact Hin | exact IH].
Qed.

(** A property of the controller's fields that every operation keeps holds
    after every sequence of operations. *)
Lemma run_ops_preserves (P : t -> Prop) :
  (forall op (w : W), P (atm w) -> P (atm (after (exec op w)))) ->
  forall ops (w : W), P (atm w) -> P (atm (run_ops ops w)).
Proof.
  intros Hstep ops. induction ops as [|op ops IH]; intros w Hw; simpl.
  - exact Hw.
  - apply IH. apply Hstep. exact Hw.
Qed.

Lemma exec_moved (op : Op) (w : W) : moved (atm w) (atm (after (exec op w))).
Proof.
  destruct w as [[st card acct log] b h].
  destruct op; unfold exec, bind, ret; simpl.
  - (* insert_card *)
    unfold insert_card, bind, ret, get_self; simpl.
    destruct (ATMState_eqb st IDLE) eqn:E; simpl.
    + apply ATMState_eqb_eq in E. subst st.
      exact (moved_insert (mkATM IDLE card acct log) card_number eq_refl).
    + apply (moved_stay (mkATM st card acct log) log).
  - (* enter_pin *)
    unfold enter_pin, bind, ret, get_self; simpl.
    destruct (ATMState_eqb st CARD_INSERTED) eqn:E; simpl;
      [| apply (moved_stay (mkATM st card acct log) log)].
    destruct (py_not card) eqn:Ec; simpl;
      [apply (moved_stay (mkATM st card acct log) log) |].
    destruct (fst (BankSystemInterface.verify_pin (value_of card) pin b)); simpl.
    + apply ATMState_eqb_eq in E. subst st.
      apply (moved_verify (mkATM CARD_INSERTED card acct log)); [reflexivity | exact Ec].
    + apply (moved_stay (mkATM st card acct log) log).
  - (* get_available_accounts *)
    unfold get_available_accounts, bind, ret, get_self; simpl.
    destruct (negb (ATMState_eqb st PIN_VERIFIED) || py_not card); simpl;
      apply (moved_stay (mkATM st card acct log) log).
  - (* select_account *)
    unfold select_account, bind, ret, get_self; simpl.
    destruct (ATMState_eqb st PIN_VERIFIED) eqn:E; simpl;
      [| apply (moved_stay (mkATM st card acct log) log)].
    unfold get_available_accounts, bind, ret, get_self; simpl. rewrite E; simpl.
    apply ATMState_eqb_eq in E. subst st.
    destruct (py_not card) eqn:Ec; simpl.
    + apply (moved_stay (mkATM PIN_VERIFIED card acct log) log).
    + match goal with
      | |- context [select_among ?a ?l ?w] =>
          destruct (select_among_cases a l w) as [Hs | [_ Hs]]; rewrite Hs; simpl
      end.
      * apply (moved_stay (mkATM PIN_VERIFIED card acct log) log).
      * apply (moved_select (mkATM PIN_VERIFIED card acct log)); [reflexivity | exact Ec].
  - (* check_balance *)
    unfold check_balance, bind, ret, get_self; simpl.
    destruct (negb (ATMState_eqb st ACCOUNT_SELECTED) || py_not acct); simpl.
    + apply (moved_stay (mkATM st card acct log) log).
    + apply (moved_stay (mkATM st card acct log)).
  - (* withdraw *)
    unfold withdraw, bind, ret, get_self; simpl.
    destruct (negb (ATMState_eqb st ACCOUNT_SELECTED) || py_not acct); simpl;
      [apply (moved_stay (mkATM st card acct log) log) |].
    destruct (amount <=? 0); simpl; [apply (moved_stay (mkATM st card acct log) log) |].
    destruct (fst (BankSystemInterface.withdraw (value_of acct) amount b)); simpl.
    + destruct (fst (HardwareInterface.dispense_cash amount h)); simpl;
        apply (moved_stay (mkATM st card acct log)).
    + apply (moved_stay (mkATM st card acct log)).
  - (* deposit *)
    unfold deposit, bind, ret, get_self; simpl.
    destruct (negb (ATMState_eqb st ACCOUNT_SELECTED) || py_not acct); simpl;
      [apply (moved_stay (mkATM st card acct log) log) |].
    destruct (amount <=? 0); simpl; [apply (moved_stay (mkATM st card acct log) log) |].
    match goal with
    | |- context [fst (BankSystemInterface.deposit ?a ?n ?s)] =>
        destruct (fst (BankSystemInterface.deposit a n s)); simpl
    end; apply (moved_stay (mkATM st card acct log)).
  - (* eject_card *)
    unfold eject_card, bind, ret; simpl.
    destruct (fst (HardwareInterface.eject_card h)); simpl.
    + apply (moved_reset (mkATM st card acct log)).
    + apply (moved_stay (mkATM st card acct log) log).
  - (* cancel_transaction *)
    unfold cancel_transaction, eject_card, bind, ret; simpl.
    destruct (fst (HardwareInterface.eject_card h)); simpl.
    + apply (moved_reset (mkATM st card acct log)).
    + apply (moved_stay (mkATM st card acct log) log).
Qed.

Lemma moved_invariant (c c' : t) :
  moved c c' -> session_invariant c -> session_invariant c'.
Proof.
  unfold session_invariant, present.
  intros Hm [Hcard Hacct]; destruct Hm as [log | card_number Hst | Hst Hc | a Hst Hc | ];
    simpl in *.
  - split; assumption.
  - split.
    + split; [intros _; left; reflexivity | intros _; discriminate].
    + rewrite Hacct, Hst. split; discriminate.
  - split.
    + split; [intros _; right; left; reflexivity | intros _].
      apply Hcard. left. exact Hst.
    + rewrite Hacct, Hst. split; discriminate.
  - split.
    + split; [intros _; right; right; reflexivity | intros _].
      apply py_not_false in Hc. destruct Hc as [s [Hc _]]. rewrite Hc. discriminate.
    + split; [intros _; reflexivity | intros _; discriminate].
  - split.
    + split; [intros Hn; contradiction Hn; reflexivity |].
      intros [Hx | [Hx | Hx]]; discriminate.
    + split; [intros Hn; contradiction Hn; reflexivity | discriminate].
Qed.

Lemma moved_not_completed (c c' : t) :
  moved c c' -> state c <> TRANSACTION_COMPLETED -> state c' <> TRANSACTION_COMPLETED.
Proof.
  intros Hm Hc; destruct Hm; simpl; try discriminate; exact Hc.
Qed.

Lemma init_invariant : session_invariant init.
Proof.
  unfold session_invariant, present; simpl. split; split; try discriminate.
  - intros Hn; contradiction Hn; reflexivity.
  - intros [Hx | [Hx | Hx]]; discriminate.
  - intros Hn; contradiction Hn; reflexivity.
Qed.

(** C7. The field invariant of the Session holds for the controller as
    [__init__] builds it, every operation keeps it whatever the ledger and
    the hardware answer, and so it holds after every sequence of calls:
    [current_card] is present exactly in [CARD_INSERTED], [PIN_VERIFIED] and
    [ACCOUNT_SELECTED], and [selected_account] exactly in [ACCOUNT_SELECTED]. *)
Theorem C7_session_invariant (b : B) (h : H) :
  session_invariant (atm (start b h))
  /\ (forall op (w : W),
        session_invariant (atm w) -> session_invariant (atm (after (exec op w))))
  /\ (forall ops, session_invariant (atm (run_ops ops (start b h)))).
Proof.
  assert (Hstep : forall op (w : W),
             session_invariant (atm w) -> session_invariant (atm (after (exec op w)))).
  { intros op w. apply moved_invariant. apply exec_moved. }
  split; [exact init_invariant | split; [exact Hstep |]].
  intros ops. apply (run_ops_preserves session_invariant Hstep). exact init_invariant.
Qed.

(** C9. Starting from the controller as [__init__] builds it, no sequence of
    operations brings [state] to [TRANSACTION_COMPLETED]; no single operation
    does from a state that is not [TRANSACTION_COMPLETED] already. *)
Theorem C9_transaction_completed_unreachable (b : B) (h : H) :
  (forall ops, state (atm (run_ops ops (start b h))) <> TRANSACTION_COMPLETED)
  /\ (forall op (w : W),
        state (atm w) <> TRANSACTION_COMPLETED ->
        state (atm (after (exec op w))) <> TRANSACTION_COMPLETED).
Proof.
  assert (Hstep : forall op (w : W),
             state (atm w) <> TRANSACTION_COMPLETED ->
             state (atm (after (exec op w))) <> TRANSACTION_COMPLETED).
  { intros op w. apply moved_not_completed. apply exec_moved. }
  split; [| exact Hstep].
  intros ops.
  apply (run_ops_preserves (fun c => state c <> TRANSACTION_COMPLETED) Hstep).
  simpl. discriminate.
Qed.

(** C6. In every state [eject_card] makes one call, the hardware's eject, and
    returns its answer.  When the answer is [True] the Session is [IDLE] with
    no card and no account afterwards; when it is [False] the controller's
    fields are as before.  The transaction log and the ledger are never
    touched, and [cancel_transaction] is the same method. *)
Theorem C6_eject_card (w : W) :
  let answer := fst (HardwareInterface.eject_card (hardware w)) in
  result (eject_card w) = answer
  /\ trace (eject_card w) = [CallEjectCard answer]
  /\ atm (after (eject_card w)) =
       (if answer then mkATM IDLE None None (transaction_history (atm w)) else atm w)
  /\ bank_system (after (eject_card w)) = bank_system w
  /\ hardware (after (eject_card w)) = snd (HardwareInterface.eject_card (hardware w))
  /\ cancel_transaction w = eject_card w.
Proof.
  destruct w as [[st card acct log] b h]; simpl.
  unfold cancel_transaction, eject_card, bind, ret; simpl.
  destruct (fst (HardwareInterface.eject_card h)); simpl; repeat split; reflexivity.
Qed.

(** C1, as the code has it.  An operation other than ejection that is called
    outside its required state, or without the card, the account or the
    positive amount it needs, returns its failure indicator (or the empty
    list), calls no collaborator and leaves the whole world as it was: the
    Session fields, the log, the ledger and the hardware.  Ejection and
    cancellation have no guard: called in [IDLE] they return what the
    hardware's eject answers, and the Session fields of a session that
    satisfies the field invariant are unchanged. *)
Theorem C1_rejected_operation (op : Op) (w : W) :
  precondition op (atm w) = false ->
  (is_eject op = false -> exec op w = mkRun (failure op) w [])
  /\ (is_eject op = true ->
      session_invariant (atm w) ->
      result (exec op w) = RBool (fst (HardwareInterface.eject_card (hardware w)))
      /\ session (atm (after (exec op w))) = session (atm w)).
Proof.
  intros Hpre. split.
  - intros Hop. destruct w as [[st card acct log] b h].
    destruct op; try discriminate Hop; simpl in Hpre; unfold exec, bind, ret; simpl.
    + unfold insert_card, bind, ret, get_self; simpl. rewrite Hpre. reflexivity.
    + unfold enter_pin, bind, ret, get_self; simpl.
      destruct st; simpl in *; try reflexivity.
      apply negb_false_iff in Hpre. rewrite Hpre. reflexivity.
    + unfold get_available_accounts, bind, ret, get_self; simpl.
      destruct st; simpl in *; try reflexivity.
      apply negb_false_iff in Hpre. rewrite Hpre. reflexivity.
    + unfold select_account, get_available_accounts, bind, ret, get_self; simpl.
      destruct st; simpl in *; try reflexivity.
      apply negb_false_iff in Hpre. rewrite Hpre. reflexivity.
    + unfold check_balance, bind, ret, get_self; simpl.
      destruct st; simpl in *; try reflexivity.
      apply negb_false_iff in Hpre. rewrite Hpre. reflexivity.
    + unfold withdraw, bind, ret, get_self; simpl.
      destruct st; simpl in *; try reflexivity.
      destruct (py_not acct); simpl in *; [reflexivity |].
      apply Z.ltb_ge in Hpre. apply Z.leb_le in Hpre. rewrite Hpre. reflexivity.
    + unfold deposit, bind, ret, get_self; simpl.
      destruct st; simpl in *; try reflexivity.
      destruct (py_not acct); simpl in *; [reflexivity |].
      apply Z.ltb_ge in Hpre. apply Z.leb_le in Hpre. rewrite Hpre. reflexivity.
  - intros Hop [Hcard Hacct]. unfold present in *.
    assert (Hidle : state (atm w) = IDLE).
    { destruct op; try discriminate Hop; simpl in Hpre;
        apply negb_false_iff in Hpre; apply ATMState_eqb_eq in Hpre; exact Hpre. }
    assert (Hc : current_card (atm w) = None).
    { destruct (current_card (atm w)) as [s|] eqn:E; [| reflexivity].
      assert (Hp : Some s <> None) by discriminate.
      apply Hcard in Hp. rewrite Hidle in Hp. destruct Hp as [Hp | [Hp | Hp]]; discriminate. }
    assert (Ha : selected_account (atm w) = None).
    { destruct (selected_account (atm w)) as [s|] eqn:E; [| reflexivity].
      assert (Hp : Some s <> None) by discriminate.
      apply Hacct in Hp. rewrite Hidle in Hp. discriminate. }
    destruct w as [[st card acct log] b h]; simpl in *. subst st card acct.
    destruct op; try discriminate Hop;
      unfold exec, cancel_transaction, eject_card, bind, ret; simpl;
      destruct (fst (HardwareInterface.eject_card h)); simpl; split; reflexivity.
Qed.

End Generic.

(** ** The ledger of [MockBankSystem] *)

Section MockLedger.

Import MockBankSystem.

Lemma distinct_cons (x : string) (l : list string) :
  distinct (x :: l) = true -> ~ In x l /\ distinct l = true.
Proof.
  simpl. intros Hd. apply andb_true_iff in Hd. destruct Hd as [Hx Hl].
  split; [| exact Hl].
  intros Hin. apply negb_true_iff in Hx.
  assert (Hex : existsb (String.eqb x) l = true).
  { apply existsb_exists. exists x. split; [exact Hin | apply String.eqb_refl]. }
  congruence.
Qed.

Lemma distinct_app (l1 l2 : list string) :
  distinct (l1 ++ l2) = true ->
  distinct l1 = true /\ distinct l2 = true /\ (forall x, In x l1 -> ~ In x l2).
Proof.
  induction l1 as [|y l1 IH]; intros Hd.
  - simpl in *. repeat split; [exact Hd | intros x []].
  - change ((y :: l1) ++ l2) with (y :: (l1 ++ l2)) in Hd.
    apply distinct_cons in Hd. destruct Hd as [Hy Hd].
    destruct (IH Hd) as [H1 [H2 H3]].
    repeat split.
    + simpl. apply andb_true_iff. split; [| exact H1].
      apply negb_true_iff. destruct (existsb (String.eqb y) l1) eqn:E; [| reflexivity].
      apply existsb_exists in E. destruct E as [z [Hz Hyz]].
      apply String.eqb_eq in Hyz. subst z.
      contradiction Hy. apply in_or_app. left. exact Hz.
    + exact H2.
    + intros x [Hx | Hx] Hin.
      * subst y. apply Hy. apply in_or_app. right. exact Hin.
      * exact (H3 x Hx Hin).
Qed.


Lemma set_accounts_back (cd : CardData) (l : list Account) :
  set_accounts (accounts cd) (set_accounts l cd) = cd.
Proof. destruct cd; reflexivity. Qed.

(** A loop that finds no account with the number changes nothing. *)
Lemma debit_in_absent (a : string) (n : Z) (l : list Account) :
  ~ In a (numbers_in l) -> debit_in a n l = None.
Proof.
  induction l as [|x l IH]; simpl; intros Hn; [reflexivity |].
  destruct (number x =? a)%string eqn:E.
  - apply String.eqb_eq in E. contradiction Hn. left. exact E.
  - rewrite IH; [reflexivity | intros Hin; apply Hn; right; exact Hin].
Qed.

Lemma credit_in_absent (a : string) (n : Z) (l : list Account) :
  ~ In a (numbers_in l) -> credit_in a n l = None.
Proof.
  induction l as [|x l IH]; simpl; intros Hn; [reflexivity |].
  destruct (number x =? a)%string eqn:E.
  - apply String.eqb_eq in E. contradiction Hn. left. exact E.
  - rewrite IH; [reflexivity | intros Hin; apply Hn; right; exact Hin].
Qed.

Lemma debit_in_present (a : string) (n : Z) (l l' : list Account) :
  debit_in a n l = Some l' -> In a (numbers_in l).
Proof.
  intros Hd. destruct (in_dec string_dec a (numbers_in l)) as [Hin | Hout]; [exact Hin |].
  rewrite (debit_in_absent a n l Hout) in Hd. discriminate.
Qed.

Lemma debit_present (a : string) (n : Z) (d d' : state) :
  debit a n d = Some d' -> In a (all_numbers d).
Proof.
  revert d'. induction d as [|[card cd] rest IH]; simpl; intros d' Hd; [discriminate |].
  apply in_or_app.
  destruct (debit_in a n (accounts cd)) as [l|] eqn:E.
  - left. exact (debit_in_present a n _ l E).
  - right. destruct (debit a n rest) as [r|] eqn:Er; [| discriminate].
    exact (IH r eq_refl).
Qed.



(** A debit the ledger refuses leaves the ledger as it was. *)
Lemma mock_withdraw_refused (a : string) (n : Z) (d : state) :
  fst (withdraw a n d) = false -> snd (withdraw a n d) = d.
Proof.
  unfold withdraw. destruct (n <=? 0); [reflexivity |].
  destruct (debit a n d); [discriminate | reflexivity].
Qed.

(** A credit the ledger refuses leaves the ledger as it was. *)
Lemma mock_deposit_refused (a : string) (n : Z) (d : state) :
  fst (deposit a n d) = false -> snd (deposit a n d) = d.
Proof.
  unfold deposit. destruct (n <=? 0); [reflexivity |].
  destruct (credit a n d); [discriminate | reflexivity].
Qed.

(** The ledger refuses to credit an amount that is not positive. *)
Lemma mock_deposit_nonpositive (a : string) (n : Z) (d : state) :
  n <= 0 -> deposit a n d = (false, d).
Proof.
  intros Hn. unfold deposit. apply Z.leb_le in Hn. rewrite Hn. reflexivity.
Qed.


Lemma mock_get_balance_pure (a : string) (d : state) : snd (get_balance a d) = d.
Proof. unfold get_balance. destruct (balance_of a d); reflexivity. Qed.

(** Debits and credits change balances only: the account numbers stay, in
    their order, and with them their distinctness. *)
Lemma debit_in_numbers (a : string) (n : Z) (l l' : list Account) :
  debit_in a n l = Some l' -> numbers_in l' = numbers_in l.
Proof.
  revert l'. induction l as [|x l IH]; simpl; intros l' Hd; [discriminate |].
  destruct (number x =? a)%string.
  - destruct (balance x >=? n).
    + injection Hd as <-. reflexivity.
    + destruct (debit_in a n l) as [r|]; [| discriminate].
      injection Hd as <-. simpl. rewrite (IH r eq_refl). reflexivity.
  - destruct (debit_in a n l) as [r|]; [| discriminate].
    injection Hd as <-. simpl. rewrite (IH r eq_refl). reflexivity.
Qed.

Lemma credit_in_numbers (a : string) (n : Z) (l l' : list Account) :
  credit_in a n l = Some l' -> numbers_in l' = numbers_in l.
Proof.
  revert l'. induction l as [|x l IH]; simpl; intros l' Hd; [discriminate |].
  destruct (number x =? a)%string.
  - injection Hd as <-. reflexivity.
  - destruct (credit_in a n l) as [r|]; [| discriminate].
    injection Hd as <-. simpl. rewrite (IH r eq_refl). reflexivity.
Qed.

Lemma mock_withdraw_numbers (a : string) (n : Z) (d : state) :
  all_numbers (snd (withdraw a n d)) = all_numbers d.
Proof.
  unfold withdraw. destruct (n <=? 0); [reflexivity |].
  destruct (debit a n d) as [d'|] eqn:E; [simpl | reflexivity].
  revert d' E. induction d as [|[card cd] rest IH]; simpl; intros d' E; [discriminate |].
  destruct (debit_in a n (accounts cd)) as [l|] eqn:El.
  - injection E as <-. simpl. rewrite (debit_in_numbers a n _ l El). reflexivity.
  - destruct (debit a n rest) as [r|]; [| discriminate].
    injection E as <-. simpl. rewrite (IH r eq_refl). reflexivity.
Qed.

Lemma mock_deposit_numbers (a : string) (n : Z) (d : state) :
  all_numbers (snd (deposit a n d)) = all_numbers d.
Proof.
  unfold deposit. destruct (n <=? 0); [reflexivity |].
  destruct (credit a n d) as [d'|] eqn:E; [simpl | reflexivity].
  revert d' E. induction d as [|[card cd] rest IH]; simpl; intros d' E; [discriminate |].
  destruct (credit_in a n (accounts cd)) as [l|] eqn:El.
  - injection E as <-. simpl. rewrite (credit_in_numbers a n _ l El). reflexivity.
  - destruct (credit a n rest) as [r|]; [| discriminate].
    injection E as <-. simpl. rewrite (IH r eq_refl). reflexivity.
Qed.

Lemma mock_init_unique : unique_numbers init = true.
Proof. reflexivity. Qed.

(** With distinct account numbers, the ledger refuses a debit larger than
    the balance it reports for the account. *)
Lemma debit_in_insufficient (a : string) (n : Z) (l : list Account) (b : Z) :
  distinct (numbers_in l) = true ->
  balance_in a l = Some b -> b < n ->
  debit_in a n l = None.
Proof.
  induction l as [|x l IH]; simpl; intros Hd Hb Hlt; [discriminate |].
  apply distinct_cons in Hd. destruct Hd as [Hx Hd].
  destruct (number x =? a)%string eqn:E.
  - injection Hb as <-.
    destruct (balance x >=? n) eqn:Eb.
    + apply Z.geb_le in Eb. lia.
    + apply String.eqb_eq in E. subst a. rewrite (debit_in_absent _ n l Hx). reflexivity.
  - rewrite (IH Hd Hb Hlt). reflexivity.
Qed.

Lemma balance_in_absent (a : string) (l : list Account) :
  balance_in a l = None -> ~ In a (numbers_in l).
Proof.
  induction l as [|x l IH]; simpl; intros Hb; [intros [] |].
  destruct (number x =? a)%string eqn:E; [discriminate |].
  apply String.eqb_neq in E. intros [Hin | Hin]; [contradiction | exact (IH Hb Hin)].
Qed.

Lemma balance_in_present (a : string) (l : list Account) (b : Z) :
  balance_in a l = Some b -> In a (numbers_in l).
Proof.
  induction l as [|x l IH]; simpl; intros Hb; [discriminate |].
  destruct (number x =? a)%string eqn:E.
  - left. apply String.eqb_eq. exact E.
  - right. exact (IH Hb).
Qed.

Lemma debit_insufficient (a : string) (n : Z) (d : state) :
  distinct (all_numbers d) = true ->
  (forall b, balance_of a d = Some b -> b < n) ->
  debit a n d = None.
Proof.
  induction d as [|[card cd] rest IH]; simpl; intros Hu Hlt; [reflexivity |].
  apply distinct_app in Hu. destruct Hu as [Hcd [Hrest Hsep]].
  destruct (balance_in a (accounts cd)) as [b|] eqn:Eb.
  - rewrite (debit_in_insufficient a n _ b Hcd Eb (Hlt b eq_refl)).
    destruct (debit a n rest) as [r|] eqn:Er; [| reflexivity].
    exfalso. exact (Hsep a (balance_in_present a _ b Eb) (debit_present a n rest r Er)).
  - rewrite (debit_in_absent a n _ (balance_in_absent a _ Eb)).
    rewrite (IH Hrest Hlt). reflexivity.
Qed.

Lemma mock_withdraw_insufficient (a : string) (n : Z) (d : state) :
  unique_numbers d = true ->
  fst (get_balance a d) < n ->
  withdraw a n d = (false, d).
Proof.
  unfold withdraw, get_balance, unique_numbers. intros Hu Hlt.
  destruct (n <=? 0); [reflexivity |].
  rewrite (debit_insufficient a n d Hu); [reflexivity |].
  intros b Hb. rewrite Hb in Hlt. exact Hlt.
Qed.

End MockLedger.

(** ** The withdrawal and deposit protocols *)

Section ProtocolFacts.

Import ATMController.
Local Open Scope atm_scope.

Context {B H : Type}.
Context {bank : BankSystemInterface.t B} {hw : HardwareInterface.t H}.

Lemma guard_cases (c : t) (amount : Z) :
  precondition (OpWithdraw amount) c = false
  \/ exists account_number,
       guard_passes c account_number amount
       /\ negb (ATMState_eqb (state c) ACCOUNT_SELECTED) || py_not (selected_account c) = false
       /\ (amount <=? 0) = false
       /\ value_of (selected_account c) = account_number.
Proof.
  unfold precondition, guard_passes.
  destruct (ATMState_eqb (state c) ACCOUNT_SELECTED) eqn:Es; [| left; reflexivity].
  destruct (py_not (selected_account c)) eqn:Ea; [left; reflexivity |].
  destruct (0 <? amount) eqn:En; [right | left; reflexivity].
  apply ATMState_eqb_eq in Es. apply py_not_false in Ea. destruct Ea as [s [Ha Hs]].
  apply Z.ltb_lt in En. exists s. rewrite Ha. simpl.
  repeat split; try assumption. apply Z.leb_gt. exact En.
Qed.

Lemma rejected_withdraw (w : World B H) (amount : Z) :
  precondition (OpWithdraw amount) (atm w) = false ->
  withdraw amount w = mkRun (false, None) w [].
Proof.
  intros Hpre. destruct w as [[st card acct log] b h]. simpl in Hpre.
  unfold withdraw, bind, ret, get_self; simpl.
  destruct st; simpl in *; try reflexivity.
  destruct (py_not acct); simpl in *; [reflexivity |].
  apply Z.ltb_ge in Hpre. apply Z.leb_le in Hpre. rewrite Hpre. reflexivity.
Qed.

Lemma rejected_deposit (w : World B H) (amount : Z) :
  precondition (OpDeposit amount) (atm w) = false ->
  deposit amount w = mkRun (false, None) w [].
Proof.
  intros Hpre. destruct w as [[st card acct log] b h]. simpl in Hpre.
  unfold deposit, bind, ret, get_self; simpl.
  destruct st; simpl in *; try reflexivity.
  destruct (py_not acct); simpl in *; [reflexivity |].
  apply Z.ltb_ge in Hpre. apply Z.leb_le in Hpre. rewrite Hpre. reflexivity.
Qed.

(** Every call of [withdraw] goes one of the four ways. *)
Lemma withdraw_spec (w : World B H) (amount : Z) :
  withdraw_outcome w amount (withdraw amount w).
Proof.
  destruct (guard_cases (atm w) amount) as [Hpre | [a [Hg [Hguard [Hamt Hval]]]]].
  - rewrite (rejected_withdraw w amount Hpre). apply withdraw_rejected. exact Hpre.
  - unfold withdraw, bind, ret, get_self. cbn [result after trace].
    rewrite Hguard, Hamt, Hval.
    unfold bank_withdraw, bank_deposit, bank_get_balance, hardware_dispense_cash,
      call_bank, call_hardware, append_history, put_self.
    cbn [result after trace atm bank_system hardware].
    destruct (BankSystemInterface.withdraw a amount (bank_system w)) as [debited b1] eqn:Ed.
    cbn [fst snd]. destruct debited.
    + cbn [result after trace atm bank_system hardware].
      destruct (HardwareInterface.dispense_cash amount (hardware w)) as [cash h1] eqn:Ec.
      cbn [fst snd]. destruct cash; cbn [negb result after trace atm bank_system hardware].
      * destruct (BankSystemInterface.get_balance a b1) as [bal b2] eqn:Eb.
        cbn [fst snd app].
        exact (withdraw_dispensed w amount a b1 h1 bal b2 Hg Ed Ec Eb).
      * destruct (BankSystemInterface.deposit a amount b1) as [credited b2] eqn:Er.
        cbn [fst snd app].
        exact (withdraw_compensated w amount a b1 h1 credited b2 Hg Ed Ec Er).
    + cbn [result after trace atm bank_system hardware fst snd app].
      exact (withdraw_refused w amount a b1 Hg Ed).
Qed.

(** Every call of [deposit] goes one of the three ways. *)
Lemma deposit_spec (w : World B H) (amount : Z) :
  deposit_outcome w amount (deposit amount w).
Proof.
  destruct (guard_cases (atm w) amount) as [Hpre | [a [Hg [Hguard [Hamt Hval]]]]].
  - rewrite (rejected_deposit w amount Hpre). apply deposit_rejected. exact Hpre.
  - unfold deposit, bind, ret, get_self. cbn [result after trace].
    rewrite Hguard, Hamt, Hval.
    unfold bank_deposit, bank_get_balance, hardware_accept_cash,
      call_bank, call_hardware, append_history, put_self.
    cbn [result after trace atm bank_system hardware].
    destruct (HardwareInterface.accept_cash (hardware w)) as [accepted h1] eqn:Ea.
    cbn [fst snd].
    assert (Hamount : (if negb (accepted =? amount) then accepted else amount) = accepted).
    { destruct (accepted =? amount) eqn:E; simpl; [| reflexivity].
      apply Z.eqb_eq in E. symmetry. exact E. }
    rewrite Hamount.
    destruct (BankSystemInterface.deposit a accepted (bank_system w)) as [credited b1] eqn:Ed.
    cbn [fst snd]. destruct credited; cbn [result after trace atm bank_system hardware].
    + destruct (BankSystemInterface.get_balance a b1) as [bal b2] eqn:Eb.
      cbn [fst snd app].
      exact (deposit_credited w amount a accepted h1 b1 bal b2 Hg Ea Ed Eb).
    + cbn [fst snd app].
      exact (deposit_refused w amount a accepted h1 b1 Hg Ea Ed).
Qed.

End ProtocolFacts.

(** Membership of a call in a trace that is written out. *)
Ltac in_trace Hin :=
  simpl in Hin;
  repeat (destruct Hin as [Hin | Hin];
          [try discriminate Hin; try (injection Hin as ?; subst) |]);
  try contradiction; try discriminate.

Section AnyCollaborators.

Import ATMController.

Context {B H : Type}.
Context {bank : BankSystemInterface.t B} {hw : HardwareInterface.t H}.

(** C3, as the code has it.  When the debit succeeds, the dispenser fails and
    the compensating credit fails too, [withdraw] makes these three calls and
    no other, discards the credit's answer, returns [(False, None)] and
    appends one failed Withdrawal record with the requested amount.  What the
    caller gets is what an ordinary failed withdrawal gives: a controller
    with the same fields whose ledger refuses the debit returns the same
    value and ends with the same fields and log. *)
Theorem C3_failed_compensation_is_silent (w : World B H) (amount : Z) (acct : string) :
  state (atm w) = ACCOUNT_SELECTED ->
  0 < amount ->
  In (CallWithdraw acct amount true) (trace (withdraw amount w)) ->
  In (CallDispenseCash amount false) (trace (withdraw amount w)) ->
  In (CallDeposit acct amount false) (trace (withdraw amount w)) ->
  result (withdraw amount w) = (false, None)
  /\ trace (withdraw amount w) =
       [CallWithdraw acct amount true; CallDispenseCash amount false;
        CallDeposit acct amount false]
  /\ atm (after (withdraw amount w)) = logged (atm w) (mkTx WITHDRAWAL acct amount false)
  /\ (forall w' : World B H,
        atm w' = atm w ->
        In (CallWithdraw acct amount false) (trace (withdraw amount w')) ->
        result (withdraw amount w') = result (withdraw amount w)
        /\ atm (after (withdraw amount w')) = atm (after (withdraw amount w))).
Proof.
  intros _ _ Hdebit Hcash Hcredit.
  pose proof (withdraw_spec w amount) as Ho.
  remember (withdraw amount w) as r eqn:Er.
  destruct Ho as [Hpre | a b1 Hg Hd | a b1 h1 bal b2 Hg Hd Hc Hb | a b1 h1 ok b2 Hg Hd Hc Hb];
    cbn [result after trace atm] in *.
  - contradiction.
  - in_trace Hdebit.
  - in_trace Hcash.
  - in_trace Hdebit. in_trace Hcredit.
    split; [reflexivity | split; [reflexivity | split; [reflexivity |]]].
    intros w' Hsame Hrefused.
    pose proof (withdraw_spec w' amount) as Ho'.
    remember (withdraw amount w') as r' eqn:Er'.
    destruct Ho' as [Hpre' | a' c1 Hg' Hd' | a' c1 k1 bal' c2 Hg' Hd' Hc' Hb'
                    | a' c1 k1 ok' c2 Hg' Hd' Hc' Hb'];
      cbn [result after trace atm] in *.
    + contradiction.
    + in_trace Hrefused. rewrite Hsame. split; reflexivity.
    + in_trace Hrefused.
    + in_trace Hrefused.
Qed.


(** What [check_balance] does once its guard lets it through. *)
Lemma check_balance_run (w : World B H) (acct : string) :
  state (atm w) = ACCOUNT_SELECTED ->
  selected_account (atm w) = Some acct ->
  acct <> "" ->
  check_balance w =
    mkRun (Some (fst (BankSystemInterface.get_balance acct (bank_system w))))
      (mkWorld (logged (atm w) (mkTx BALANCE_INQUIRY acct 0 true))
         (snd (BankSystemInterface.get_balance acct (bank_system w)))
         (hardware w))
      [CallGetBalance acct (fst (BankSystemInterface.get_balance acct (bank_system w)))].
Proof.
  intros Hst Hsel Hne. destruct w as [[st card sel log] b h]. simpl in Hst, Hsel.
  subst st sel.
  assert (Hguard : py_not (Some acct) = false).
  { apply py_not_false. exists acct. split; [reflexivity | exact Hne]. }
  unfold check_balance, ATMController.bind, ATMController.ret, get_self, bank_get_balance,
    call_bank, append_history, put_self.
  cbn [result after trace atm bank_system hardware state selected_account current_card
         transaction_history ATMState_eqb negb orb value_of].
  rewrite Hguard. reflexivity.
Qed.

End AnyCollaborators.

(** ** The controller on the mock ledger, with any hardware *)

Section OnMockLedger.

Import ATMController.

Context {H : Type} {hw : HardwareInterface.t H}.

#[local] Abbreviation MW := (World MockBankSystem.state H).



(** C8, as the code has it.  On the mock ledger, in [ACCOUNT_SELECTED] with a
    selected account whose identifier is not the empty string,
    [check_balance] returns the balance the ledger reports, makes that one
    call, leaves the ledger, the hardware and the three Session fields as
    they were, appends one successful BalanceInquiry record with amount 0,
    and a second call right after returns the same value. *)
Theorem C8_check_balance (w : MW) (acct : string) :
  state (atm w) = ACCOUNT_SELECTED ->
  selected_account (atm w) = Some acct ->
  acct <> "" ->
  let reported := fst (MockBankSystem.get_balance acct (bank_system w)) in
  result (check_balance w) = Some reported
  /\ trace (check_balance w) = [CallGetBalance acct reported]
  /\ bank_system (after (check_balance w)) = bank_system w
  /\ hardware (after (check_balance w)) = hardware w
  /\ atm (after (check_balance w)) = logged (atm w) (mkTx BALANCE_INQUIRY acct 0 true)
  /\ session (atm (after (check_balance w))) = session (atm w)
  /\ result (check_balance (after (check_balance w))) = result (check_balance w).
Proof.
  intros Hst Hsel Hne.
  rewrite (check_balance_run w acct Hst Hsel Hne).
  change (BankSystemInterface.get_balance acct (bank_system w))
    with (MockBankSystem.get_balance acct (bank_system w)).
  rewrite (mock_get_balance_pure acct (bank_system w)).
  cbn [result after trace atm bank_system hardware].
  rewrite check_balance_run with (acct := acct); [| exact Hst | exact Hsel | exact Hne].
  cbn [result after trace atm bank_system hardware].
  change (BankSystemInterface.get_balance acct (bank_system w))
    with (MockBankSystem.get_balance acct (bank_system w)).
  unfold session, logged. cbn [state current_card selected_account].
  repeat split; reflexivity.
Qed.

(** C10, as the code has it.  On the mock ledger, in [ACCOUNT_SELECTED] with
    a selected account whose identifier is not the empty string and a
    positive amount, [deposit] calls [accept_cash] first and asks the credit
    of the accepted amount second, and no call on the hardware follows.
    When the accepted amount is not positive the ledger refuses the credit:
    [deposit] returns [(False, None)], appends one failed Deposit record with
    that amount, leaves the three Session fields and the ledger as they
    were, and leaves the hardware as [accept_cash] left it. *)
Theorem C10_deposit_accepts_then_credits (w : MW) (amount : Z) (acct : string) :
  state (atm w) = ACCOUNT_SELECTED ->
  selected_account (atm w) = Some acct ->
  acct <> "" ->
  0 < amount ->
  let accepted := fst (HardwareInterface.accept_cash (hardware w)) in
  (exists credited rest,
     trace (deposit amount w) =
       CallAcceptCash accepted :: CallDeposit acct accepted credited :: rest
     /\ existsb is_hardware_call rest = false)
  /\ (accepted <= 0 ->
      result (deposit amount w) = (false, None)
      /\ trace (deposit amount w) =
           [CallAcceptCash accepted; CallDeposit acct accepted false]
      /\ atm (after (deposit amount w)) =
           logged (atm w) (mkTx DEPOSIT acct accepted false)
      /\ session (atm (after (deposit amount w))) = session (atm w)
      /\ bank_system (after (deposit amount w)) = bank_system w
      /\ hardware (after (deposit amount w)) =
           snd (HardwareInterface.accept_cash (hardware w))).
Proof.
  intros Hst Hsel Hne Hn. cbv zeta.
  pose proof (deposit_spec w amount) as Ho.
  remember (deposit amount w) as r eqn:Er.
  destruct Ho as [Hpre | a n h1 b1 bal b2 Hg Ha Hd Hb | a n h1 b1 Hg Ha Hd];
    cbn [result after trace atm bank_system hardware].
  - exfalso. simpl in Hpre. rewrite Hst, Hsel in Hpre. simpl in Hpre.
    apply String.eqb_neq in Hne. rewrite Hne in Hpre. simpl in Hpre.
    apply Z.ltb_ge in Hpre. lia.
  - assert (a = acct) by (destruct Hg as [_ [Hs _]]; congruence). subst a.
    rewrite Ha. cbn [fst snd]. split.
    + exists true, [CallGetBalance acct bal]. split; reflexivity.
    + intros Hle.
      change (MockBankSystem.deposit acct n (bank_system w) = (true, b1)) in Hd.
      rewrite (mock_deposit_nonpositive acct n (bank_system w) Hle) in Hd.
      discriminate.
  - assert (a = acct) by (destruct Hg as [_ [Hs _]]; congruence). subst a.
    rewrite Ha. cbn [fst snd]. split.
    + exists false, []. split; reflexivity.
    + intros Hle.
      change (MockBankSystem.deposit acct n (bank_system w) = (false, b1)) in Hd.
      rewrite (mock_deposit_nonpositive acct n (bank_system w) Hle) in Hd.
      injection Hd as <-. repeat split; reflexivity.
Qed.

End OnMockLedger.

(** ** Distinct account numbers, along every run on the mock ledger *)

Section MockLedgerRuns.

Import ATMController.

Context {H : Type} {hw : HardwareInterface.t H}.

Lemma mock_verify_pin_pure (c p : string) (d : MockBankSystem.state) :
  snd (MockBankSystem.verify_pin c p d) = d.
Proof. unfold MockBankSystem.verify_pin. destruct (MockBankSystem.lookup c d); reflexivity. Qed.

Lemma mock_get_accounts_pure (c : string) (d : MockBankSystem.state) :
  snd (MockBankSystem.get_accounts c d) = d.
Proof. unfold MockBankSystem.get_accounts. destruct (MockBankSystem.lookup c d); reflexivity. Qed.

(** No operation of the controller changes the account numbers of the mock
    ledger. *)
Lemma exec_keeps_numbers (op : Op) (w : World MockBankSystem.state H) :
  MockBankSystem.all_numbers (bank_system (after (exec op w))) =
  MockBankSystem.all_numbers (bank_system w).
Proof.
  destruct op; unfold exec, ATMController.bind, ATMController.ret;
    cbn [result after trace bank_system].
  - (* insert_card *)
    destruct w as [[st card acct log] b h].
    unfold insert_card, ATMController.bind, ATMController.ret, get_self; simpl.
    destruct (ATMState_eqb st IDLE); reflexivity.
  - (* enter_pin *)
    destruct w as [[st card acct log] b h].
    unfold enter_pin, ATMController.bind, ATMController.ret, get_self; simpl.
    destruct (negb (ATMState_eqb st CARD_INSERTED) || py_not card); simpl; [reflexivity |].
    destruct (fst (MockBankSystem.verify_pin (value_of card) pin b)); simpl;
      rewrite mock_verify_pin_pure; reflexivity.
  - (* get_available_accounts *)
    destruct w as [[st card acct log] b h].
    unfold get_available_accounts, ATMController.bind, ATMController.ret, get_self; simpl.
    destruct (negb (ATMState_eqb st PIN_VERIFIED) || py_not card); simpl; [reflexivity |].
    rewrite mock_get_accounts_pure. reflexivity.
  - (* select_account *)
    destruct w as [[st card acct log] b h].
    unfold select_account, get_available_accounts, ATMController.bind, ATMController.ret,
      get_self; simpl.
    destruct st; simpl; try reflexivity.
    destruct (py_not card); simpl.
    + reflexivity.
    + match goal with
      | |- context [select_among ?a ?l ?v] =>
          destruct (select_among_cases a l v) as [Hs | [_ Hs]]; rewrite Hs; simpl
      end; rewrite mock_get_accounts_pure; reflexivity.
  - (* check_balance *)
    destruct w as [[st card acct log] b h].
    unfold check_balance, ATMController.bind, ATMController.ret, get_self; simpl.
    destruct (negb (ATMState_eqb st ACCOUNT_SELECTED) || py_not acct); simpl; [reflexivity |].
    rewrite mock_get_balance_pure. reflexivity.
  - (* withdraw *)
    pose proof (withdraw_spec w amount) as Ho.
    remember (withdraw amount w) as r eqn:Er.
    destruct Ho as [Hpre | a b1 Hg Hd | a b1 h1 bal b2 Hg Hd Hc Hb
                   | a b1 h1 ok b2 Hg Hd Hc Hb];
      cbn [result after trace bank_system] in *.
    + reflexivity.
    + change (MockBankSystem.withdraw a amount (bank_system w) = (false, b1)) in Hd.
      replace b1 with (snd (MockBankSystem.withdraw a amount (bank_system w)))
        by (rewrite Hd; reflexivity).
      apply mock_withdraw_numbers.
    + change (MockBankSystem.withdraw a amount (bank_system w) = (true, b1)) in Hd.
      change (MockBankSystem.get_balance a b1 = (bal, b2)) in Hb.
      replace b2 with (snd (MockBankSystem.get_balance a b1)) by (rewrite Hb; reflexivity).
      rewrite mock_get_balance_pure.
      replace b1 with (snd (MockBankSystem.withdraw a amount (bank_system w)))
        by (rewrite Hd; reflexivity).
      apply mock_withdraw_numbers.
    + change (MockBankSystem.withdraw a amount (bank_system w) = (true, b1)) in Hd.
      change (MockBankSystem.deposit a amount b1 = (ok, b2)) in Hb.
      replace b2 with (snd (MockBankSystem.deposit a amount b1)) by (rewrite Hb; reflexivity).
      rewrite mock_deposit_numbers.
      replace b1 with (snd (MockBankSystem.withdraw a amount (bank_system w)))
        by (rewrite Hd; reflexivity).
      apply mock_withdraw_numbers.
  - (* deposit *)
    pose proof (deposit_spec w amount) as Ho.
    remember (deposit amount w) as r eqn:Er.
    destruct Ho as [Hpre | a n h1 b1 bal b2 Hg Ha Hd Hb | a n h1 b1 Hg Ha Hd];
      cbn [result after trace bank_system] in *.
    + reflexivity.
    + change (MockBankSystem.deposit a n (bank_system w) = (true, b1)) in Hd.
      change (MockBankSystem.get_balance a b1 = (bal, b2)) in Hb.
      replace b2 with (snd (MockBankSystem.get_balance a b1)) by (rewrite Hb; reflexivity).
      rewrite mock_get_balance_pure.
      replace b1 with (snd (MockBankSystem.deposit a n (bank_system w)))
        by (rewrite Hd; reflexivity).
      apply mock_deposit_numbers.
    + change (MockBankSystem.deposit a n (bank_system w) = (false, b1)) in Hd.
      replace b1 with (snd (MockBankSystem.deposit a n (bank_system w)))
        by (rewrite Hd; reflexivity).
      apply mock_deposit_numbers.
  - (* eject_card *)
    destruct w as [[st card acct log] b h].
    unfold eject_card, ATMController.bind, ATMController.ret; simpl.
    destruct (fst (HardwareInterface.eject_card h)); reflexivity.
  - (* cancel_transaction *)
    destruct w as [[st card acct log] b h].
    unfold cancel_transaction, eject_card, ATMController.bind, ATMController.ret; simpl.
    destruct (fst (HardwareInterface.eject_card h)); reflexivity.
Qed.

(** Starting from the mock's own account table, the account numbers stay
    distinct whatever the driver calls and whatever the hardware answers. *)
Lemma mock_runs_unique (ops : list Op) (h : H) :
  MockBankSystem.unique_numbers
    (bank_system (run_ops ops (start MockBankSystem.init h))) = true.
Proof.
  unfold MockBankSystem.unique_numbers.
  assert (Hsame : forall (w : World MockBankSystem.state H),
             MockBankSystem.all_numbers (bank_system (run_ops ops w)) =
             MockBankSystem.all_numbers (bank_system w)).
  { induction ops as [|op ops IH]; intros w; [reflexivity |].
    change (run_ops (op :: ops) w) with (run_ops ops (after (exec op w))).
    rewrite IH. apply exec_keeps_numbers. }
  rewrite Hsame. reflexivity.
Qed.

End MockLedgerRuns.

(** ** Concrete runs *)

Section Runs.

Import ATMController.

(** C1 at a concrete input (scenario F): [enter_pin] on the controller as
    built, in [IDLE], returns [False], calls nothing and changes nothing. *)
Lemma C1_enter_pin_in_idle :
  exec (OpEnterPin "1234") (start MockBankSystem.init MockHardware.init) =
    mkRun (RBool false) (start MockBankSystem.init MockHardware.init) [].
Proof.
  exact (proj1 (C1_rejected_operation (OpEnterPin "1234")
                  (start MockBankSystem.init MockHardware.init) eq_refl) eq_refl).
Defined.

(** C1 as stated fails for ejection: on the two mocks, [eject_card] called in
    [IDLE], outside the non-idle states the transition table lists for it,
    returns [True], which is not its failure indicator. *)
Lemma C1_eject_in_idle_succeeds :
  precondition OpEjectCard (atm (start MockBankSystem.init MockHardware.init)) = false
  /\ result (exec OpEjectCard (start MockBankSystem.init MockHardware.init)) = RBool true
  /\ failure OpEjectCard = RBool false
  /\ result (exec OpCancelTransaction (start MockBankSystem.init MockHardware.init)) = RBool true.
Proof. repeat split; reflexivity. Qed.


(** C3 at a concrete input: the ledger refuses the compensating credit, and
    the call returns [(False, None)] with one failed record. *)
Lemma C3_refused_credit :
  result (withdraw 100 fatal_session) = (false, None)
  /\ atm (after (withdraw 100 fatal_session)) =
       logged (atm fatal_session) (mkTx WITHDRAWAL "1001" 100 false).
Proof.
  destruct (C3_failed_compensation_is_silent fatal_session 100 "1001")
    as [Hresult [_ [Hatm _]]].
  - reflexivity.
  - lia.
  - simpl. left. reflexivity.
  - simpl. right. left. reflexivity.
  - simpl. right. right. left. reflexivity.
  - split; [exact Hresult | exact Hatm].
Defined.

(** C3 as stated fails: with a ledger that takes the debit of 100 and
    refuses the credit, and a dispenser that gives nothing, the account has
    lost 100 and no cash came out, yet [withdraw] returns the value and
    leaves the fields and the log that it returns and leaves when the
    ledger simply refuses the debit. *)
Lemma C3_fatal_looks_like_refusal :
  trace (withdraw 100 fatal_session) =
    [CallWithdraw "1001" 100 true; CallDispenseCash 100 false; CallDeposit "1001" 100 false]
  /\ trace (withdraw 100 short_session) = [CallWithdraw "1001" 100 false]
  /\ atm fatal_session = atm short_session
  /\ result (withdraw 100 fatal_session) = (false, None)
  /\ result (withdraw 100 fatal_session) = result (withdraw 100 short_session)
  /\ atm (after (withdraw 100 fatal_session)) = atm (after (withdraw 100 short_session))
  /\ fst (MockBankSystem.get_balance "1001"
            (DebitOnlyBank.ledger (bank_system fatal_session))) = 1000
  /\ fst (MockBankSystem.get_balance "1001"
            (DebitOnlyBank.ledger (bank_system (after (withdraw 100 fatal_session))))) = 900.
Proof. repeat split; reflexivity. Qed.



(** C8 at a concrete input (scenario A). *)
Lemma C8_checking_holds_1000 :
  result (check_balance mock_session) = Some 1000
  /\ bank_system (after (check_balance mock_session)) = bank_system mock_session
  /\ result (check_balance (after (check_balance mock_session))) = Some 1000.
Proof.
  destruct (C8_check_balance mock_session "1001") as [Hr [_ [Hb [_ [_ [_ Hagain]]]]]].
  - reflexivity.
  - reflexivity.
  - discriminate.
  - split; [exact Hr | split; [exact Hb |]].
    rewrite Hagain. exact Hr.
Defined.

(** C8 as stated fails: a ledger may list an account whose number is the
    empty string; [select_account("")] selects it, the state is
    [ACCOUNT_SELECTED] and [selected_account] is present, and
    [check_balance] returns [None] and appends no record. *)
Lemma C8_unnumbered_account :
  state (atm unnumbered_session) = ACCOUNT_SELECTED
  /\ selected_account (atm unnumbered_session) = Some ""
  /\ result (check_balance unnumbered_session) = None
  /\ after (check_balance unnumbered_session) = unnumbered_session
  /\ fst (MockBankSystem.get_balance "" (bank_system unnumbered_session)) = 70.
Proof. repeat split; reflexivity. Qed.

(** C10 at a concrete input: the acceptor counts 0 for a deposit of 50. *)
Lemma C10_nothing_accepted :
  result (deposit 50 (jammed_session 0)) = (false, None)
  /\ trace (deposit 50 (jammed_session 0)) = [CallAcceptCash 0; CallDeposit "1001" 0 false]
  /\ atm (after (deposit 50 (jammed_session 0))) =
       logged (atm (jammed_session 0)) (mkTx DEPOSIT "1001" 0 false)
  /\ bank_system (after (deposit 50 (jammed_session 0))) = bank_system (jammed_session 0).
Proof.
  destruct (C10_deposit_accepts_then_credits (jammed_session 0) 50 "1001") as [_ Hfail].
  - reflexivity.
  - reflexivity.
  - discriminate.
  - lia.
  - simpl in Hfail. destruct (Hfail ltac:(lia)) as [Hr [Ht [Ha [_ [Hb _]]]]].
    split; [exact Hr | split; [exact Ht | split; [exact Ha | exact Hb]]].
Defined.

(** C10 as stated fails: in the session that selected the account with the
    empty number, in [ACCOUNT_SELECTED] and with the positive amount 50,
    [deposit] returns at its guard: it makes no call, so [accept_cash] is not
    invoked, it appends no record, and it leaves the world as it was. *)
Lemma C10_unnumbered_account_no_accept :
  state (atm unnumbered_session) = ACCOUNT_SELECTED
  /\ selected_account (atm unnumbered_session) = Some ""
  /\ trace (deposit 50 unnumbered_session) = []
  /\ result (deposit 50 unnumbered_session) = (false, None)
  /\ after (deposit 50 unnumbered_session) = unnumbered_session
  /\ transaction_history (atm (after (deposit 50 unnumbered_session))) =
       transaction_history (atm unnumbered_session).
Proof. repeat split; reflexivity. Qed.

End Runs.

(** * Further properties of the code *)

(** ** [MockBankSystem]: what a debit and a credit do *)

Section MockLedgerUpdates.

Import MockBankSystem.

Lemma ledger_accounts_cons (card : string) (cd : CardData) (rest : state) :
  ledger_accounts ((card, cd) :: rest) = accounts cd ++ ledger_accounts rest.
Proof. reflexivity. Qed.

Lemma sum_balances_app (l1 l2 : list Account) :
  sum_balances (l1 ++ l2) = sum_balances l1 + sum_balances l2.
Proof.
  induction l1 as [|x l1 IH]; simpl; [reflexivity |].
  unfold sum_balances in *. simpl. rewrite IH. lia.
Qed.

(** *** When the loops find an account *)

Lemma debit_in_found (a : string) (n : Z) (l l' : list Account) :
  debit_in a n l = Some l' ->
  exists account, In account l /\ number account = a /\ n <= balance account.
Proof.
  revert l'. induction l as [|x l IH]; simpl; intros l' Hd; [discriminate |].
  destruct (number x =? a)%string eqn:E.
  - destruct (balance x >=? n) eqn:Eb.
    + exists x. apply String.eqb_eq in E. apply Z.geb_le in Eb. auto.
    + destruct (debit_in a n l) as [r|]; [| discriminate].
      destruct (IH r eq_refl) as [y [Hy Hrest]]. exists y. auto.
  - destruct (debit_in a n l) as [r|]; [| discriminate].
    destruct (IH r eq_refl) as [y [Hy Hrest]]. exists y. auto.
Qed.

Lemma debit_in_missed (a : string) (n : Z) (l : list Account) :
  debit_in a n l = None ->
  forall account, In account l -> number account = a -> balance account < n.
Proof.
  induction l as [|x l IH]; simpl; intros Hd y Hy Hnum; [contradiction |].
  destruct (number x =? a)%string eqn:E.
  - destruct (balance x >=? n) eqn:Eb; [discriminate |].
    destruct (debit_in a n l) as [r|] eqn:Er; [discriminate |].
    destruct Hy as [<- | Hy].
    + rewrite Z.geb_leb in Eb. apply Z.leb_gt in Eb. exact Eb.
    + exact (IH eq_refl y Hy Hnum).
  - destruct (debit_in a n l) as [r|] eqn:Er; [discriminate |].
    destruct Hy as [<- | Hy].
    + apply String.eqb_neq in E. contradiction.
    + exact (IH eq_refl y Hy Hnum).
Qed.

Lemma debit_found (a : string) (n : Z) (d d' : state) :
  debit a n d = Some d' ->
  exists account, In account (ledger_accounts d) /\ number account = a /\ n <= balance account.
Proof.
  revert d'. induction d as [|[card cd] rest IH]; simpl; intros d' Hd; [discriminate |].
  destruct (debit_in a n (accounts cd)) as [l|] eqn:E.
  - destruct (debit_in_found a n _ l E) as [y [Hy Hrest]].
    exists y. split; [apply in_or_app; left; exact Hy | exact Hrest].
  - destruct (debit a n rest) as [r|]; [| discriminate].
    destruct (IH r eq_refl) as [y [Hy Hrest]].
    exists y. split; [apply in_or_app; right; exact Hy | exact Hrest].
Qed.

Lemma debit_missed (a : string) (n : Z) (d : state) :
  debit a n d = None ->
  forall account, In account (ledger_accounts d) -> number account = a -> balance account < n.
Proof.
  induction d as [|[card cd] rest IH]; simpl; intros Hd y Hy Hnum; [contradiction |].
  destruct (debit_in a n (accounts cd)) as [l|] eqn:E; [discriminate |].
  destruct (debit a n rest) as [r|] eqn:Er; [discriminate |].
  apply in_app_or in Hy. destruct Hy as [Hy | Hy].
  - exact (debit_in_missed a n _ E y Hy Hnum).
  - exact (IH eq_refl y Hy Hnum).
Qed.

(** X1. [withdraw] answers [True] exactly when the amount is positive and
    some account with the number holds at least the amount; an account with
    the number that holds less does not end the search.  When it answers
    [False] the ledger is as it was. *)
Theorem mock_withdraw_succeeds_iff (a : string) (n : Z) (d : state) :
  (fst (withdraw a n d) = true <->
     0 < n /\ exists account,
                In account (ledger_accounts d) /\ number account = a /\ n <= balance account)
  /\ (fst (withdraw a n d) = false -> snd (withdraw a n d) = d).
Proof.
  split.
  - unfold withdraw. destruct (n <=? 0) eqn:En.
    + apply Z.leb_le in En. simpl. split; [discriminate | intros [Hn _]; lia].
    + apply Z.leb_gt in En.
      destruct (debit a n d) as [d'|] eqn:Ed; simpl.
      * split; [intros _ | reflexivity]. split; [exact En | exact (debit_found a n d d' Ed)].
      * split; [discriminate |]. intros [_ [y [Hy [Hnum Hle]]]].
        pose proof (debit_missed a n d Ed y Hy Hnum). lia.
  - apply mock_withdraw_refused.
Qed.

(** *** The money in the ledger *)

Lemma debit_in_sum (a : string) (n : Z) (l l' : list Account) :
  debit_in a n l = Some l' -> sum_balances l' = sum_balances l - n.
Proof.
  revert l'. induction l as [|x l IH]; simpl; intros l' Hd; [discriminate |].
  assert (Hrec : forall r, debit_in a n l = Some r ->
                           sum_balances (x :: r) = sum_balances (x :: l) - n).
  { intros r Hr. unfold sum_balances in *. simpl. rewrite (IH r Hr). lia. }
  destruct (number x =? a)%string.
  - destruct (balance x >=? n).
    + injection Hd as <-. unfold sum_balances. simpl. lia.
    + destruct (debit_in a n l) as [r|]; [| discriminate].
      injection Hd as <-. exact (Hrec r eq_refl).
  - destruct (debit_in a n l) as [r|]; [| discriminate].
    injection Hd as <-. exact (Hrec r eq_refl).
Qed.

Lemma credit_in_sum (a : string) (n : Z) (l l' : list Account) :
  credit_in a n l = Some l' -> sum_balances l' = sum_balances l + n.
Proof.
  revert l'. induction l as [|x l IH]; simpl; intros l' Hd; [discriminate |].
  destruct (number x =? a)%string.
  - injection Hd as <-. unfold sum_balances. simpl. lia.
  - destruct (credit_in a n l) as [r|]; [| discriminate].
    injection Hd as <-. unfold sum_balances in *. simpl. rewrite (IH r eq_refl). lia.
Qed.

Lemma debit_total (a : string) (n : Z) (d d' : state) :
  debit a n d = Some d' -> ledger_total d' = ledger_total d - n.
Proof.
  unfold ledger_total.
  revert d'. induction d as [|[card cd] rest IH]; simpl; intros d' Hd; [discriminate |].
  destruct (debit_in a n (accounts cd)) as [l|] eqn:E.
  - injection Hd as <-. rewrite ledger_accounts_cons. simpl accounts.
    rewrite !sum_balances_app. rewrite (debit_in_sum a n _ l E). lia.
  - destruct (debit a n rest) as [r|]; [| discriminate].
    injection Hd as <-. rewrite ledger_accounts_cons.
    rewrite !sum_balances_app. rewrite (IH r eq_refl). lia.
Qed.

Lemma credit_total (a : string) (n : Z) (d d' : state) :
  credit a n d = Some d' -> ledger_total d' = ledger_total d + n.
Proof.
  unfold ledger_total.
  revert d'. induction d as [|[card cd] rest IH]; simpl; intros d' Hd; [discriminate |].
  destruct (credit_in a n (accounts cd)) as [l|] eqn:E.
  - injection Hd as <-. rewrite ledger_accounts_cons. simpl accounts.
    rewrite !sum_balances_app. rewrite (credit_in_sum a n _ l E). lia.
  - destruct (credit a n rest) as [r|]; [| discriminate].
    injection Hd as <-. rewrite ledger_accounts_cons.
    rewrite !sum_balances_app. rewrite (IH r eq_refl). lia.
Qed.

(** X2. The money the ledger holds moves by the amount and by nothing else:
    a [withdraw] answered [True] lowers the sum of all balances by the
    amount, a [deposit] answered [True] raises it by the amount, and one
    answered [False] leaves it. *)
Theorem mock_ledger_total (a : string) (n : Z) (d : state) :
  ledger_total (snd (withdraw a n d)) =
    ledger_total d - (if fst (withdraw a n d) then n else 0)
  /\ ledger_total (snd (deposit a n d)) =
       ledger_total d + (if fst (deposit a n d) then n else 0).
Proof.
  unfold withdraw, deposit. destruct (n <=? 0); simpl; [split; lia |].
  split.
  - destruct (debit a n d) as [d'|] eqn:E; simpl; [exact (debit_total a n d d' E) | lia].
  - destruct (credit a n d) as [d'|] eqn:E; simpl; [exact (credit_total a n d d' E) | lia].
Qed.

End MockLedgerUpdates.

(** ** [MockBankSystem]: balances, overdrafts and what stays *)

Section MockLedgerBalances.

Import MockBankSystem.

Lemma solvent_cons (card : string) (cd : CardData) (rest : state) :
  solvent ((card, cd) :: rest) =
    forallb (fun account => 0 <=? balance account) (accounts cd) && solvent rest.
Proof. unfold solvent. rewrite ledger_accounts_cons. apply forallb_app. Qed.

Lemma debit_in_solvent (a : string) (n : Z) (l l' : list Account) :
  debit_in a n l = Some l' ->
  forallb (fun account => 0 <=? balance account) l = true ->
  forallb (fun account => 0 <=? balance account) l' = true.
Proof.
  revert l'. induction l as [|x l IH]; simpl; intros l' Hd Hs; [discriminate |].
  apply andb_true_iff in Hs. destruct Hs as [Hx Hl].
  destruct (number x =? a)%string.
  - destruct (balance x >=? n) eqn:Eb.
    + injection Hd as <-. simpl. rewrite Hl. apply Z.geb_le in Eb.
      apply andb_true_iff. split; [apply Z.leb_le; lia | reflexivity].
    + destruct (debit_in a n l) as [r|]; [| discriminate].
      injection Hd as <-. simpl. rewrite Hx, (IH r eq_refl Hl). reflexivity.
  - destruct (debit_in a n l) as [r|]; [| discriminate].
    injection Hd as <-. simpl. rewrite Hx, (IH r eq_refl Hl). reflexivity.
Qed.

Lemma credit_in_solvent (a : string) (n : Z) (l l' : list Account) :
  0 < n ->
  credit_in a n l = Some l' ->
  forallb (fun account => 0 <=? balance account) l = true ->
  forallb (fun account => 0 <=? balance account) l' = true.
Proof.
  intros Hn. revert l'. induction l as [|x l IH]; simpl; intros l' Hd Hs; [discriminate |].
  apply andb_true_iff in Hs. destruct Hs as [Hx Hl].
  destruct (number x =? a)%string.
  - injection Hd as <-. simpl. rewrite Hl. apply Z.leb_le in Hx.
    apply andb_true_iff. split; [apply Z.leb_le; lia | reflexivity].
  - destruct (credit_in a n l) as [r|]; [| discriminate].
    injection Hd as <-. simpl. rewrite Hx, (IH r eq_refl Hl). reflexivity.
Qed.

(** X3. No overdraft: when no balance of the ledger is negative, none is
    after a [withdraw] or a [deposit], whatever the account, the amount and
    the answer. *)
Theorem mock_stays_solvent (a : string) (n : Z) (d : state) :
  solvent d = true ->
  solvent (snd (withdraw a n d)) = true /\ solvent (snd (deposit a n d)) = true.
Proof.
  intros Hs. unfold withdraw, deposit. destruct (n <=? 0) eqn:En; [split; exact Hs |].
  apply Z.leb_gt in En. split.
  - destruct (debit a n d) as [d'|] eqn:E; [simpl | exact Hs].
    revert d' E Hs. induction d as [|[card cd] rest IH]; simpl; intros d' E Hs;
      [discriminate |].
    rewrite solvent_cons in Hs. apply andb_true_iff in Hs. destruct Hs as [Hcd Hrest].
    destruct (debit_in a n (accounts cd)) as [l|] eqn:El.
    + injection E as <-. rewrite solvent_cons. simpl accounts.
      rewrite (debit_in_solvent a n _ l El Hcd), Hrest. reflexivity.
    + destruct (debit a n rest) as [r|]; [| discriminate].
      injection E as <-. rewrite solvent_cons, Hcd, (IH r eq_refl Hrest). reflexivity.
  - destruct (credit a n d) as [d'|] eqn:E; [simpl | exact Hs].
    revert d' E Hs. induction d as [|[card cd] rest IH]; simpl; intros d' E Hs;
      [discriminate |].
    rewrite solvent_cons in Hs. apply andb_true_iff in Hs. destruct Hs as [Hcd Hrest].
    destruct (credit_in a n (accounts cd)) as [l|] eqn:El.
    + injection E as <-. rewrite solvent_cons. simpl accounts.
      rewrite (credit_in_solvent a n _ l En El Hcd), Hrest. reflexivity.
    + destruct (credit a n rest) as [r|]; [| discriminate].
      injection E as <-. rewrite solvent_cons, Hcd, (IH r eq_refl Hrest). reflexivity.
Qed.

(** *** The balance [get_balance] reports *)

Lemma balance_in_of_absent (a : string) (l : list Account) :
  ~ In a (numbers_in l) -> balance_in a l = None.
Proof.
  intros Hn. destruct (balance_in a l) as [b|] eqn:E; [| reflexivity].
  contradiction Hn. exact (balance_in_present a l b E).
Qed.

Lemma debit_in_other (a a' : string) (n : Z) (l l' : list Account) :
  a' <> a -> debit_in a n l = Some l' -> balance_in a' l' = balance_in a' l.
Proof.
  intros Hne. revert l'. induction l as [|x l IH]; simpl; intros l' Hd; [discriminate |].
  destruct (number x =? a)%string eqn:E.
  - destruct (balance x >=? n).
    + injection Hd as <-. simpl. apply String.eqb_eq in E. rewrite E.
      destruct (a =? a')%string eqn:E'; [| reflexivity].
      apply String.eqb_eq in E'. congruence.
    + destruct (debit_in a n l) as [r|]; [| discriminate].
      injection Hd as <-. simpl. rewrite (IH r eq_refl). reflexivity.
  - destruct (debit_in a n l) as [r|]; [| discriminate].
    injection Hd as <-. simpl. rewrite (IH r eq_refl). reflexivity.
Qed.

Lemma credit_in_other (a a' : string) (n : Z) (l l' : list Account) :
  a' <> a -> credit_in a n l = Some l' -> balance_in a' l' = balance_in a' l.
Proof.
  intros Hne. revert l'. induction l as [|x l IH]; simpl; intros l' Hd; [discriminate |].
  destruct (number x =? a)%string eqn:E.
  - injection Hd as <-. simpl. apply String.eqb_eq in E. rewrite E.
    destruct (a =? a')%string eqn:E'; [| reflexivity].
    apply String.eqb_eq in E'. congruence.
  - destruct (credit_in a n l) as [r|]; [| discriminate].
    injection Hd as <-. simpl. rewrite (IH r eq_refl). reflexivity.
Qed.

Lemma debit_other (a a' : string) (n : Z) (d d' : state) :
  a' <> a -> debit a n d = Some d' -> balance_of a' d' = balance_of a' d.
Proof.
  intros Hne. revert d'. induction d as [|[card cd] rest IH]; simpl; intros d' Hd;
    [discriminate |].
  destruct (debit_in a n (accounts cd)) as [l|] eqn:E.
  - injection Hd as <-. simpl. rewrite (debit_in_other a a' n _ l Hne E). reflexivity.
  - destruct (debit a n rest) as [r|]; [| discriminate].
    injection Hd as <-. simpl. rewrite (IH r eq_refl). reflexivity.
Qed.

Lemma credit_other (a a' : string) (n : Z) (d d' : state) :
  a' <> a -> credit a n d = Some d' -> balance_of a' d' = balance_of a' d.
Proof.
  intros Hne. revert d'. induction d as [|[card cd] rest IH]; simpl; intros d' Hd;
    [discriminate |].
  destruct (credit_in a n (accounts cd)) as [l|] eqn:E.
  - injection Hd as <-. simpl. rewrite (credit_in_other a a' n _ l Hne E). reflexivity.
  - destruct (credit a n rest) as [r|]; [| discriminate].
    injection Hd as <-. simpl. rewrite (IH r eq_refl). reflexivity.
Qed.

Lemma debit_in_balance (a : string) (n : Z) (l l' : list Account) :
  distinct (numbers_in l) = true ->
  debit_in a n l = Some l' ->
  exists b, balance_in a l = Some b /\ balance_in a l' = Some (b - n).
Proof.
  revert l'. induction l as [|x l IH]; simpl; intros l' Hu Hd; [discriminate |].
  apply distinct_cons in Hu. destruct Hu as [Hx Hu].
  destruct (number x =? a)%string eqn:E.
  - destruct (balance x >=? n).
    + injection Hd as <-. exists (balance x). simpl. rewrite E. split; reflexivity.
    + apply String.eqb_eq in E. subst a.
      rewrite (debit_in_absent (number x) n l Hx) in Hd. discriminate.
  - destruct (debit_in a n l) as [r|] eqn:Er; [| discriminate].
    injection Hd as <-. simpl. rewrite E. exact (IH r Hu eq_refl).
Qed.

Lemma debit_balance (a : string) (n : Z) (d d' : state) :
  unique_numbers d = true ->
  debit a n d = Some d' ->
  exists b, balance_of a d = Some b /\ balance_of a d' = Some (b - n).
Proof.
  unfold unique_numbers.
  revert d'. induction d as [|[card cd] rest IH]; simpl; intros d' Hu Hd; [discriminate |].
  apply distinct_app in Hu. destruct Hu as [Hcd [Hrest Hsep]].
  destruct (debit_in a n (accounts cd)) as [l|] eqn:E.
  - injection Hd as <-. simpl.
    destruct (debit_in_balance a n _ l Hcd E) as [b [Hb Hb']].
    exists b. rewrite Hb, Hb'. split; reflexivity.
  - destruct (debit a n rest) as [r|] eqn:Er; [| discriminate].
    injection Hd as <-. simpl.
    assert (Hout : ~ In a (numbers_in (accounts cd))).
    { intros Hin. exact (Hsep a Hin (debit_present a n rest r Er)). }
    rewrite (balance_in_of_absent a _ Hout). exact (IH r Hrest eq_refl).
Qed.

(** The balance reported after a debit, with distinct account numbers. *)
Lemma debited_balance (a : string) (n : Z) (d : state) :
  unique_numbers d = true ->
  fst (withdraw a n d) = true ->
  fst (get_balance a (snd (withdraw a n d))) = fst (get_balance a d) - n.
Proof.
  unfold withdraw, get_balance. intros Hu.
  destruct (n <=? 0); [discriminate |].
  destruct (debit a n d) as [d'|] eqn:E; [| discriminate].
  intros _. simpl.
  destruct (debit_balance a n d d' Hu E) as [b [Hb Hb']]. rewrite Hb, Hb'. reflexivity.
Qed.

(** X4. With distinct account numbers, a [withdraw] answered [True] lowers
    the balance [get_balance] reports for the account by the amount.  With or
    without distinct numbers it leaves the balance reported for every other
    account number. *)
Theorem mock_withdraw_balance (a : string) (n : Z) (d : state) :
  unique_numbers d = true ->
  fst (withdraw a n d) = true ->
  fst (get_balance a (snd (withdraw a n d))) = fst (get_balance a d) - n
  /\ (forall a', a' <> a ->
        fst (get_balance a' (snd (withdraw a n d))) = fst (get_balance a' d)).
Proof.
  unfold withdraw, get_balance. intros Hu.
  destruct (n <=? 0); [discriminate |].
  destruct (debit a n d) as [d'|] eqn:E; [| discriminate].
  intros _. simpl. split.
  - destruct (debit_balance a n d d' Hu E) as [b [Hb Hb']]. rewrite Hb, Hb'. reflexivity.
  - intros a' Hne. rewrite (debit_other a a' n d d' Hne E).
    destruct (balance_of a' d); reflexivity.
Qed.

Lemma credit_in_balance (a : string) (n : Z) (l l' : list Account) :
  credit_in a n l = Some l' ->
  exists b, balance_in a l = Some b /\ balance_in a l' = Some (b + n).
Proof.
  revert l'. induction l as [|x l IH]; simpl; intros l' Hd; [discriminate |].
  destruct (number x =? a)%string eqn:E.
  - injection Hd as <-. exists (balance x). simpl. rewrite E. split; reflexivity.
  - destruct (credit_in a n l) as [r|] eqn:Er; [| discriminate].
    injection Hd as <-. simpl. rewrite E. exact (IH r eq_refl).
Qed.

Lemma credit_in_present (a : string) (n : Z) (l : list Account) :
  In a (numbers_in l) -> exists l', credit_in a n l = Some l'.
Proof.
  induction l as [|x l IH]; simpl; intros Hin; [contradiction |].
  destruct (number x =? a)%string eqn:E; [eexists; reflexivity |].
  apply String.eqb_neq in E. destruct Hin as [Hin | Hin]; [contradiction |].
  destruct (IH Hin) as [r Hr]. rewrite Hr. eexists. reflexivity.
Qed.

Lemma credit_balance (a : string) (n : Z) (d d' : state) :
  credit a n d = Some d' ->
  exists b, balance_of a d = Some b /\ balance_of a d' = Some (b + n).
Proof.
  revert d'. induction d as [|[card cd] rest IH]; simpl; intros d' Hd; [discriminate |].
  destruct (credit_in a n (accounts cd)) as [l|] eqn:E.
  - injection Hd as <-. simpl.
    destruct (credit_in_balance a n _ l E) as [b [Hb Hb']].
    exists b. rewrite Hb, Hb'. split; reflexivity.
  - destruct (credit a n rest) as [r|] eqn:Er; [| discriminate].
    injection Hd as <-. simpl.
    destruct (balance_in a (accounts cd)) as [b|] eqn:Eb.
    + destruct (credit_in_present a n _ (balance_in_present a _ b Eb)) as [l' Hl'].
      congruence.
    + exact (IH r eq_refl).
Qed.

Lemma credit_present (a : string) (n : Z) (d : state) :
  In a (all_numbers d) -> exists d', credit a n d = Some d'.
Proof.
  induction d as [|[card cd] rest IH]; simpl; intros Hin; [contradiction |].
  destruct (credit_in a n (accounts cd)) as [l|] eqn:E; [eexists; reflexivity |].
  apply in_app_or in Hin. destruct Hin as [Hin | Hin].
  - destruct (credit_in_present a n _ Hin) as [l' Hl']. congruence.
  - destruct (IH Hin) as [r Hr]. rewrite Hr. eexists. reflexivity.
Qed.

Lemma credit_absent (a : string) (n : Z) (d : state) :
  ~ In a (all_numbers d) -> credit a n d = None.
Proof.
  induction d as [|[card cd] rest IH]; simpl; intros Hout; [reflexivity |].
  rewrite credit_in_absent; [| intros Hin; apply Hout; apply in_or_app; left; exact Hin].
  rewrite IH; [reflexivity | intros Hin; apply Hout; apply in_or_app; right; exact Hin].
Qed.

(** A positive credit to an account the ledger has is accepted, and raises
    the balance reported. *)
Lemma credited_balance (a : string) (n : Z) (d : state) :
  0 < n ->
  In a (all_numbers d) ->
  fst (deposit a n d) = true
  /\ fst (get_balance a (snd (deposit a n d))) = fst (get_balance a d) + n.
Proof.
  intros Hn Hin. unfold deposit, get_balance.
  destruct (n <=? 0) eqn:En; [apply Z.leb_le in En; lia |].
  destruct (credit_present a n d Hin) as [d' Hd']. rewrite Hd'. simpl.
  destruct (credit_balance a n d d' Hd') as [b [Hb Hb']]. rewrite Hb, Hb'.
  split; reflexivity.
Qed.

(** X5. [deposit] answers [True] exactly when the amount is positive and the
    ledger has an account with the number.  It then raises the balance
    [get_balance] reports for the account by the amount and leaves the one
    reported for every other number; answered [False], it leaves the
    ledger as it was. *)
Theorem mock_deposit_balance (a : string) (n : Z) (d : state) :
  (fst (deposit a n d) = true <-> 0 < n /\ In a (all_numbers d))
  /\ (fst (deposit a n d) = true ->
      fst (get_balance a (snd (deposit a n d))) = fst (get_balance a d) + n)
  /\ (forall a', a' <> a ->
        fst (get_balance a' (snd (deposit a n d))) = fst (get_balance a' d))
  /\ (fst (deposit a n d) = false -> snd (deposit a n d) = d).
Proof.
  unfold deposit, get_balance. destruct (n <=? 0) eqn:En.
  - apply Z.leb_le in En. simpl.
    repeat split; try discriminate; try reflexivity. intros [Hn _]. lia.
  - apply Z.leb_gt in En.
    destruct (credit a n d) as [d'|] eqn:E; simpl.
    + split; [| split; [| split]].
      * split; [intros _ | reflexivity]. split; [exact En |].
        destruct (in_dec string_dec a (all_numbers d)) as [Hin | Hout]; [exact Hin |].
        rewrite (credit_absent a n d Hout) in E. discriminate.
      * intros _. destruct (credit_balance a n d d' E) as [b [Hb Hb']].
        rewrite Hb, Hb'. reflexivity.
      * intros a' Hne. rewrite (credit_other a a' n d d' Hne E).
        destruct (balance_of a' d); reflexivity.
      * discriminate.
    + split; [| split; [| split]]; try reflexivity; try discriminate.
      split; [discriminate |]. intros [_ Hin].
      destruct (credit_present a n d Hin) as [d' Hd']. congruence.
Qed.

End MockLedgerBalances.

(** ** [MockBankSystem]: undoing a credit, and what no update touches *)

Section MockLedgerFrame.

Import MockBankSystem.

Lemma set_balance_forth (x : Account) (n : Z) :
  set_balance (balance (set_balance (balance x + n) x) - n) (set_balance (balance x + n) x) = x.
Proof. destruct x as [num nm bal]; unfold set_balance; simpl. f_equal. lia. Qed.

Lemma credit_in_undo (a : string) (n b : Z) (l l' : list Account) :
  credit_in a n l = Some l' ->
  balance_in a l = Some b ->
  0 <= b ->
  debit_in a n l' = Some l.
Proof.
  revert l'. induction l as [|x l IH]; simpl; intros l' Hc Hb Hpos; [discriminate |].
  destruct (number x =? a)%string eqn:E.
  - injection Hc as <-. injection Hb as <-. cbn [debit_in].
    replace (number (set_balance (balance x + n) x)) with (number x) by reflexivity.
    rewrite E.
    replace (balance (set_balance (balance x + n) x)) with (balance x + n) by reflexivity.
    assert (Hge : (balance x + n >=? n) = true) by (apply Z.geb_le; lia).
    rewrite Hge.
    pose proof (set_balance_forth x n) as Hback.
    replace (balance (set_balance (balance x + n) x)) with (balance x + n) in Hback
      by reflexivity.
    rewrite Hback. reflexivity.
  - destruct (credit_in a n l) as [r|] eqn:Er; [| discriminate].
    injection Hc as <-. simpl. rewrite E. rewrite (IH r eq_refl Hb Hpos). reflexivity.
Qed.

Lemma credit_undo (a : string) (n b : Z) (d d' : state) :
  credit a n d = Some d' ->
  balance_of a d = Some b ->
  0 <= b ->
  debit a n d' = Some d.
Proof.
  revert d'. induction d as [|[card cd] rest IH]; simpl; intros d' Hc Hb Hpos;
    [discriminate |].
  destruct (credit_in a n (accounts cd)) as [l|] eqn:E.
  - injection Hc as <-. simpl.
    destruct (credit_in_balance a n _ l E) as [b0 [Hb0 _]]. rewrite Hb0 in Hb.
    injection Hb as <-.
    rewrite (credit_in_undo a n b0 _ l E Hb0 Hpos). rewrite set_accounts_back. reflexivity.
  - destruct (credit a n rest) as [r|] eqn:Er; [| discriminate].
    injection Hc as <-. simpl.
    destruct (balance_in a (accounts cd)) as [b0|] eqn:Eb.
    + destruct (credit_in_present a n _ (balance_in_present a _ b0 Eb)) as [l' Hl'].
      congruence.
    + rewrite (debit_in_absent a n _ (balance_in_absent a _ Eb)).
      rewrite (IH r eq_refl Hb Hpos). reflexivity.
Qed.

(** X6. A credit can be taken back: when the balance reported for the
    account is not negative and [deposit] answers [True], a [withdraw] of the
    same amount from the same account answers [True] and gives the ledger
    back, account for account.  Distinct account numbers are not needed. *)
Theorem mock_deposit_then_withdraw (a : string) (n : Z) (d : state) :
  0 <= fst (get_balance a d) ->
  fst (deposit a n d) = true ->
  withdraw a n (snd (deposit a n d)) = (true, d).
Proof.
  unfold deposit, withdraw, get_balance. intros Hpos.
  destruct (n <=? 0); [discriminate |].
  destruct (credit a n d) as [d'|] eqn:E; [| discriminate].
  intros _. simpl.
  destruct (credit_balance a n d d' E) as [b [Hb _]].
  rewrite Hb in Hpos. simpl in Hpos.
  rewrite (credit_undo a n b d d' E Hb Hpos). reflexivity.
Qed.

(** *** Pins, cards, account numbers and names *)

Lemma debit_in_labels (a : string) (n : Z) (l l' : list Account) :
  debit_in a n l = Some l' -> map account_label l' = map account_label l.
Proof.
  revert l'. induction l as [|x l IH]; simpl; intros l' Hd; [discriminate |].
  destruct (number x =? a)%string.
  - destruct (balance x >=? n).
    + injection Hd as <-. reflexivity.
    + destruct (debit_in a n l) as [r|]; [| discriminate].
      injection Hd as <-. simpl. rewrite (IH r eq_refl). reflexivity.
  - destruct (debit_in a n l) as [r|]; [| discriminate].
    injection Hd as <-. simpl. rewrite (IH r eq_refl). reflexivity.
Qed.

Lemma credit_in_labels (a : string) (n : Z) (l l' : list Account) :
  credit_in a n l = Some l' -> map account_label l' = map account_label l.
Proof.
  revert l'. induction l as [|x l IH]; simpl; intros l' Hd; [discriminate |].
  destruct (number x =? a)%string.
  - injection Hd as <-. reflexivity.
  - destruct (credit_in a n l) as [r|]; [| discriminate].
    injection Hd as <-. simpl. rewrite (IH r eq_refl). reflexivity.
Qed.

Lemma debit_labels (a : string) (n : Z) (d d' : state) :
  debit a n d = Some d' -> ledger_labels d' = ledger_labels d.
Proof.
  revert d'. induction d as [|[card cd] rest IH]; simpl; intros d' Hd; [discriminate |].
  destruct (debit_in a n (accounts cd)) as [l|] eqn:E.
  - injection Hd as <-. simpl. unfold card_label. simpl.
    rewrite (debit_in_labels a n _ l E). reflexivity.
  - destruct (debit a n rest) as [r|]; [| discriminate].
    injection Hd as <-. simpl. rewrite (IH r eq_refl). reflexivity.
Qed.

Lemma credit_labels (a : string) (n : Z) (d d' : state) :
  credit a n d = Some d' -> ledger_labels d' = ledger_labels d.
Proof.
  revert d'. induction d as [|[card cd] rest IH]; simpl; intros d' Hd; [discriminate |].
  destruct (credit_in a n (accounts cd)) as [l|] eqn:E.
  - injection Hd as <-. simpl. unfold card_label. simpl.
    rewrite (credit_in_labels a n _ l E). reflexivity.
  - destruct (credit a n rest) as [r|]; [| discriminate].
    injection Hd as <-. simpl. rewrite (IH r eq_refl). reflexivity.
Qed.

Lemma lookup_labels (c : string) (d d' : state) :
  ledger_labels d' = ledger_labels d ->
  option_map card_label (lookup c d') = option_map card_label (lookup c d).
Proof.
  revert d'. induction d as [|[k cd] rest IH]; intros [|[k' cd'] rest']; simpl;
    intros Hl; try discriminate; [reflexivity |].
  injection Hl as Hk Hpin Hacc Hrest. subst k'.
  destruct (k =? c)%string; simpl; [| exact (IH rest' Hrest)].
  unfold card_label. rewrite Hpin, Hacc. reflexivity.
Qed.

Lemma labels_answers (c p : string) (d d' : state) :
  ledger_labels d' = ledger_labels d ->
  fst (verify_pin c p d') = fst (verify_pin c p d)
  /\ map account_label (fst (get_accounts c d')) = map account_label (fst (get_accounts c d)).
Proof.
  intros Hl. pose proof (lookup_labels c d d' Hl) as Hc.
  unfold verify_pin, get_accounts.
  destruct (lookup c d') as [cd'|], (lookup c d) as [cd|]; simpl in *;
    try discriminate; [| split; reflexivity].
  unfold card_label in Hc. injection Hc as Hpin Hacc. rewrite Hpin, Hacc. split; reflexivity.
Qed.

(** X7. Neither [withdraw] nor [deposit] changes anything but balances:
    after either, whatever it answers, [verify_pin] answers as before for
    every card and pin, and [get_accounts] lists for every card the same
    account numbers and names in the same order. *)
Theorem mock_updates_keep_cards (a : string) (n : Z) (d : state) (c p : string) :
  (fst (verify_pin c p (snd (withdraw a n d))) = fst (verify_pin c p d)
   /\ map account_label (fst (get_accounts c (snd (withdraw a n d)))) =
        map account_label (fst (get_accounts c d)))
  /\ (fst (verify_pin c p (snd (deposit a n d))) = fst (verify_pin c p d)
      /\ map account_label (fst (get_accounts c (snd (deposit a n d)))) =
           map account_label (fst (get_accounts c d))).
Proof.
  split; apply labels_answers.
  - unfold withdraw. destruct (n <=? 0); [reflexivity |].
    destruct (debit a n d) as [d'|] eqn:E; [exact (debit_labels a n d d' E) | reflexivity].
  - unfold deposit. destruct (n <=? 0); [reflexivity |].
    destruct (credit a n d) as [d'|] eqn:E; [exact (credit_labels a n d d' E) | reflexivity].
Qed.

End MockLedgerFrame.

(** ** One operation, step by step *)

Section Steps.

Import ATMController.

Context {B H : Type}.
Context {bank : BankSystemInterface.t B} {hw : HardwareInterface.t H}.

(** What [enter_pin] does once its guard lets it through. *)
Lemma enter_pin_run (w : World B H) (card pin : string) :
  state (atm w) = CARD_INSERTED ->
  current_card (atm w) = Some card ->
  card <> "" ->
  enter_pin pin w =
    mkRun (fst (BankSystemInterface.verify_pin card pin (bank_system w)))
      (mkWorld
         (if fst (BankSystemInterface.verify_pin card pin (bank_system w))
          then mkATM PIN_VERIFIED (Some card) (selected_account (atm w))
                 (transaction_history (atm w))
          else atm w)
         (snd (BankSystemInterface.verify_pin card pin (bank_system w)))
         (hardware w))
      [CallVerifyPin card pin (fst (BankSystemInterface.verify_pin card pin (bank_system w)))].
Proof.
  intros Hst Hcard Hne. destruct w as [[st c sel log] b h]. simpl in Hst, Hcard.
  subst st c.
  assert (Hguard : py_not (Some card) = false).
  { apply py_not_false. exists card. split; [reflexivity | exact Hne]. }
  unfold enter_pin, ATMController.bind, ATMController.ret, get_self, bank_verify_pin,
    call_bank, set_state, put_self.
  cbn [result after trace atm bank_system hardware state selected_account current_card
         transaction_history ATMState_eqb negb orb value_of].
  rewrite Hguard. simpl.
  destruct (fst (BankSystemInterface.verify_pin card pin b)); reflexivity.
Qed.

(** The account loop of [select_account] answers whether the number is
    listed. *)
Lemma select_among_run (account_number : string) (accounts : list Account) (w : World B H) :
  select_among account_number accounts w =
    mkRun (existsb (fun account => (number account =? account_number)%string) accounts)
      (if existsb (fun account => (number account =? account_number)%string) accounts
       then mkWorld (mkATM ACCOUNT_SELECTED (current_card (atm w)) (Some account_number)
                       (transaction_history (atm w)))
              (bank_system w) (hardware w)
       else w)
      [].
Proof.
  induction accounts as [|account rest IH]; [reflexivity |].
  cbn [select_among existsb].
  destruct (number account =? account_number)%string; [reflexivity | exact IH].
Qed.

(** What [select_account] does once its guard lets it through. *)
Lemma select_account_run (w : World B H) (card account_number : string) :
  state (atm w) = PIN_VERIFIED ->
  current_card (atm w) = Some card ->
  card <> "" ->
  select_account account_number w =
    let listed := BankSystemInterface.get_accounts card (bank_system w) in
    let found := existsb (fun account => (number account =? account_number)%string)
                   (fst listed) in
    mkRun found
      (mkWorld
         (if found
          then mkATM ACCOUNT_SELECTED (Some card) (Some account_number)
                 (transaction_history (atm w))
          else atm w)
         (snd listed) (hardware w))
      [CallGetAccounts card (fst listed)].
Proof.
  intros Hst Hcard Hne. destruct w as [[st c sel log] b h]. simpl in Hst, Hcard.
  subst st c.
  assert (Hguard : py_not (Some card) = false).
  { apply py_not_false. exists card. split; [reflexivity | exact Hne]. }
  unfold select_account, get_available_accounts, ATMController.bind, ATMController.ret,
    get_self, bank_get_accounts, call_bank.
  cbn [result after trace atm bank_system hardware state selected_account current_card
         transaction_history ATMState_eqb negb orb value_of].
  rewrite Hguard. rewrite select_among_run. simpl.
  destruct (existsb (fun account => (number account =? account_number)%string)
              (fst (BankSystemInterface.get_accounts card b))); reflexivity.
Qed.

(** What [get_available_accounts] does once its guard lets it through. *)
Lemma get_available_accounts_run (w : World B H) (card : string) :
  state (atm w) = PIN_VERIFIED ->
  current_card (atm w) = Some card ->
  card <> "" ->
  get_available_accounts w =
    mkRun (fst (BankSystemInterface.get_accounts card (bank_system w)))
      (mkWorld (atm w) (snd (BankSystemInterface.get_accounts card (bank_system w)))
         (hardware w))
      [CallGetAccounts card (fst (BankSystemInterface.get_accounts card (bank_system w)))].
Proof.
  intros Hst Hcard Hne. destruct w as [[st c sel log] b h]. simpl in Hst, Hcard.
  subst st c.
  assert (Hguard : py_not (Some card) = false).
  { apply py_not_false. exists card. split; [reflexivity | exact Hne]. }
  unfold get_available_accounts, ATMController.bind, ATMController.ret, get_self,
    bank_get_accounts, call_bank.
  cbn [result after trace atm bank_system hardware state selected_account current_card
         transaction_history ATMState_eqb negb orb value_of].
  rewrite Hguard. reflexivity.
Qed.

(** An operation other than ejection whose guard fails does nothing. *)
Lemma rejected_exec (op : Op) (w : World B H) :
  is_eject op = false ->
  precondition op (atm w) = false ->
  exec op w = mkRun (failure op) w [].
Proof.
  intros Hop Hpre.
  destruct op; try discriminate Hop;
    try (unfold exec, ATMController.bind; rewrite rejected_withdraw by exact Hpre;
         reflexivity);
    try (unfold exec, ATMController.bind; rewrite rejected_deposit by exact Hpre;
         reflexivity);
    destruct w as [[st card acct log] b h]; simpl in Hpre;
    unfold exec, ATMController.bind, ATMController.ret; simpl.
  - unfold insert_card, ATMController.bind, ATMController.ret, get_self; simpl.
    rewrite Hpre. reflexivity.
  - unfold enter_pin, ATMController.bind, ATMController.ret, get_self; simpl.
    destruct st; simpl in *; try reflexivity.
    apply negb_false_iff in Hpre. rewrite Hpre. reflexivity.
  - unfold get_available_accounts, ATMController.bind, ATMController.ret, get_self; simpl.
    destruct st; simpl in *; try reflexivity.
    apply negb_false_iff in Hpre. rewrite Hpre. reflexivity.
  - unfold select_account, get_available_accounts, ATMController.bind, ATMController.ret,
      get_self; simpl.
    destruct st; simpl in *; try reflexivity.
    apply negb_false_iff in Hpre. rewrite Hpre. reflexivity.
  - unfold check_balance, ATMController.bind, ATMController.ret, get_self; simpl.
    destruct st; simpl in *; try reflexivity.
    apply negb_false_iff in Hpre. rewrite Hpre. reflexivity.
Qed.

(** The state and the card or account a guard has found. *)
Lemma guard_found (st want : ATMState) (x : option string) :
  ATMState_eqb st want && negb (py_not x) = true ->
  st = want /\ exists s, x = Some s /\ s <> "".
Proof.
  intros Hg. apply andb_true_iff in Hg. destruct Hg as [Hst Hx].
  apply ATMState_eqb_eq in Hst. apply negb_true_iff in Hx. apply py_not_false in Hx.
  split; assumption.
Qed.

Lemma exec_after_trace (op : Op) (w : World B H) :
  match op with
  | OpInsertCard c =>
      after (exec op w) = after (insert_card c w) /\ trace (exec op w) = trace (insert_card c w)
  | OpEnterPin p =>
      after (exec op w) = after (enter_pin p w) /\ trace (exec op w) = trace (enter_pin p w)
  | OpGetAvailableAccounts =>
      after (exec op w) = after (get_available_accounts w)
      /\ trace (exec op w) = trace (get_available_accounts w)
  | OpSelectAccount a =>
      after (exec op w) = after (select_account a w)
      /\ trace (exec op w) = trace (select_account a w)
  | OpCheckBalance =>
      after (exec op w) = after (check_balance w) /\ trace (exec op w) = trace (check_balance w)
  | OpWithdraw n =>
      after (exec op w) = after (withdraw n w) /\ trace (exec op w) = trace (withdraw n w)
  | OpDeposit n =>
      after (exec op w) = after (deposit n w) /\ trace (exec op w) = trace (deposit n w)
  | OpEjectCard | OpCancelTransaction =>
      after (exec op w) = after (eject_card w) /\ trace (exec op w) = trace (eject_card w)
  end.
Proof.
  destruct op; unfold exec, cancel_transaction, ATMController.bind, ATMController.ret;
    cbn [result after trace]; rewrite app_nil_r; split; reflexivity.
Qed.

(** Every operation is one of the six steps, and every call it makes is one
    the session allows. *)
Lemma exec_step (op : Op) (w : World B H) :
  step_kind (atm w) (trace (exec op w)) (atm (after (exec op w)))
  /\ (forall call, In call (trace (exec op w)) -> call_allowed (atm w) call).
Proof.
  destruct (is_eject op) eqn:Hop.
  - (* eject_card, cancel_transaction *)
    assert (Hrun : after (exec op w) = after (eject_card w)
                   /\ trace (exec op w) = trace (eject_card w)).
    { pose proof (exec_after_trace op w) as Hx. destruct op; try discriminate Hop; exact Hx. }
    destruct Hrun as [Ha Ht]. rewrite Ha, Ht.
    destruct w as [[st card acct log] b h].
    unfold eject_card, ATMController.bind, ATMController.ret; simpl.
    destruct (fst (HardwareInterface.eject_card h)); simpl; split;
      try (intros call [<- | []]; exact I).
    + apply (step_reset (mkATM st card acct log)).
    + apply step_same.
  - destruct (precondition op (atm w)) eqn:Hpre.
    2:{ rewrite (rejected_exec op w Hop Hpre). simpl.
        split; [apply step_same | intros call []]. }
    pose proof (exec_after_trace op w) as Hx.
    destruct op; try discriminate Hop; destruct Hx as [Ha Ht]; rewrite Ha, Ht;
      clear Ha Ht; simpl in Hpre.
    + (* insert_card *)
      apply ATMState_eqb_eq in Hpre.
      destruct w as [[st card acct log] b h]. simpl in Hpre. subst st.
      unfold insert_card, ATMController.bind, ATMController.ret, get_self; simpl.
      split; [| intros call []].
      exact (step_insert (mkATM IDLE card acct log) [] card_number eq_refl).
    + (* enter_pin *)
      destruct (guard_found _ _ _ Hpre) as [Hst [card [Hcard Hne]]].
      rewrite (enter_pin_run w card pin Hst Hcard Hne).
      cbn [result after trace atm].
      destruct (fst (BankSystemInterface.verify_pin card pin (bank_system w))) eqn:Ev.
      * split.
        -- rewrite <- Hcard.
           apply (step_verify (atm w) _ card pin Hst Hcard Hne). left. reflexivity.
        -- intros call [<- | []]. simpl. split; assumption.
      * split; [apply step_same |].
        intros call [<- | []]. simpl. split; assumption.
    + (* get_available_accounts *)
      destruct (guard_found _ _ _ Hpre) as [Hst [card [Hcard Hne]]].
      rewrite (get_available_accounts_run w card Hst Hcard Hne).
      cbn [result after trace atm].
      split; [apply step_same |].
      intros call [<- | []]. simpl. split; assumption.
    + (* select_account *)
      destruct (guard_found _ _ _ Hpre) as [Hst [card [Hcard Hne]]].
      rewrite (select_account_run w card account_number Hst Hcard Hne).
      cbn [result after trace atm].
      split; [| intros call [<- | []]; simpl; split; assumption].
      destruct (existsb (fun account => (number account =? account_number)%string)
                  (fst (BankSystemInterface.get_accounts card (bank_system w)))) eqn:Ef;
        [| apply step_same].
      rewrite <- Hcard.
      apply (step_select (atm w) _ card account_number
               (fst (BankSystemInterface.get_accounts card (bank_system w))) Hst Hcard Hne).
      * left. reflexivity.
      * apply existsb_exists in Ef. destruct Ef as [account [Hin Heq]].
        apply String.eqb_eq in Heq. subst account_number. apply in_map. exact Hin.
    + (* check_balance *)
      destruct (guard_found _ _ _ Hpre) as [Hst [a [Hsel Hne]]].
      rewrite (check_balance_run w a Hst Hsel Hne).
      cbn [result after trace atm].
      split.
      * apply step_logged; [exact Hst | exact Hsel |].
        split; [exact Hne | split; [intros _; split; reflexivity | discriminate]].
      * intros call [<- | []]. simpl. split; assumption.
    + (* withdraw *)
      pose proof (withdraw_spec w amount) as Ho.
      remember (withdraw amount w) as r eqn:Er.
      destruct Ho as [Hrej | a b1 Hg Hd | a b1 h1 bal b2 Hg Hd Hc Hb
                     | a b1 h1 ok b2 Hg Hd Hc Hb];
        cbn [result after trace atm];
        [split; [apply step_same | intros call []] | | |];
        destruct Hg as [Hst [Hsel [Hne Hn]]];
        (split;
         [ apply step_logged; [exact Hst | exact Hsel |];
           split; [exact Hne | split; [discriminate | intros _; exact Hn]]
         | intros call Hin; simpl in Hin;
           repeat (destruct Hin as [<- | Hin]; [simpl; auto |]); contradiction ]).
    + (* deposit *)
      pose proof (deposit_spec w amount) as Ho.
      remember (deposit amount w) as r eqn:Er.
      destruct Ho as [Hrej | a n h1 b1 bal b2 Hg Ha Hd Hb | a n h1 b1 Hg Ha Hd];
        cbn [result after trace atm];
        [split; [apply step_same | intros call []] | |];
        destruct Hg as [Hst [Hsel [Hne Hn]]];
        (split;
         [ apply step_logged; [exact Hst | exact Hsel |];
           split; [exact Hne | split; discriminate]
         | intros call Hin; simpl in Hin;
           repeat (destruct Hin as [<- | Hin]; [simpl; auto |]); contradiction ]).
Qed.

End Steps.

(** ** Runs of operations: the log and the calls behind a session *)

Section RunInvariants.

Import ATMController.

Context {B H : Type}.
Context {bank : BankSystemInterface.t B} {hw : HardwareInterface.t H}.

Lemma step_kind_moved (c c' : t) (calls : list Call) :
  step_kind c calls c' -> moved c c'.
Proof.
  intros Hs. destruct Hs as [| record Hst Hsel Hwf | card Hst | card pin Hst Hcard Hne Hin
                            | card a listed Hst Hcard Hne Hin Ha |].
  - destruct c as [st card sel log].
    exact (moved_stay (mkATM st card sel log) log).
  - apply moved_stay.
  - apply moved_insert. exact Hst.
  - apply moved_verify; [exact Hst |].
    apply py_not_false. exists card. split; assumption.
  - apply moved_select; [exact Hst |].
    apply py_not_false. exists card. split; assumption.
  - apply moved_reset.
Qed.

(** The log after a step is the log before with at most one record more, a
    well-formed one, and none unless the state was [ACCOUNT_SELECTED]. *)
Lemma step_kind_log (c c' : t) (calls : list Call) :
  step_kind c calls c' ->
  exists l,
    transaction_history c' = transaction_history c ++ l
    /\ (length l <= 1)%nat
    /\ Forall well_formed_record l
    /\ (state c <> ACCOUNT_SELECTED -> l = []).
Proof.
  intros Hs. destruct Hs as [| record Hst Hsel Hwf | card Hst | card pin Hst Hcard Hne Hin
                            | card a listed Hst Hcard Hne Hin Ha |];
    try (exists []; simpl; rewrite app_nil_r; repeat split; auto; fail).
  exists [record]. simpl. repeat split; auto. intros Hn. contradiction.
Qed.

Lemma run_invariant (Inv : t -> list Call -> Prop) :
  (forall c calls c' past, step_kind c calls c' -> Inv c past -> Inv c' (past ++ calls)) ->
  forall ops (w : World B H) past,
    Inv (atm w) past -> Inv (atm (run_ops ops w)) (past ++ run_calls ops w).
Proof.
  intros Hstep ops. induction ops as [|op ops IH]; intros w past Hinv.
  - simpl. rewrite app_nil_r. exact Hinv.
  - change (run_ops (op :: ops) w) with (run_ops ops (after (exec op w))).
    cbn [run_calls]. rewrite app_assoc. apply IH.
    apply (Hstep (atm w) (trace (exec op w))); [| exact Hinv].
    apply exec_step.
Qed.

Lemma session_backed_step (c c' : t) (calls past : list Call) :
  step_kind c calls c' -> session_backed c past -> session_backed c' (past ++ calls).
Proof.
  intros Hs [Hinv [Hpin Hacct]].
  pose proof (moved_invariant c c' (step_kind_moved c c' calls Hs) Hinv) as Hinv'.
  split; [exact Hinv' |].
  destruct Hinv as [_ Hsel]. unfold present in Hsel.
  assert (Hnone : state c <> ACCOUNT_SELECTED -> selected_account c = None).
  { intros Hn. destruct (selected_account c) as [a|] eqn:E; [| reflexivity].
    contradiction Hn. apply Hsel. discriminate. }
  assert (Hpast : forall call, In call past -> In call (past ++ calls)).
  { intros call Hin. apply in_or_app. left. exact Hin. }
  assert (Hnew : forall call, In call calls -> In call (past ++ calls)).
  { intros call Hin. apply in_or_app. right. exact Hin. }
  destruct Hs as [| record Hst Hsl Hwf | card Hst | card pin Hst Hcard Hne Hin
                 | card a listed Hst Hcard Hne Hin Ha |]; simpl.
  - split.
    + intros Hs. destruct (Hpin Hs) as [cd [p [H1 [H2 H3]]]].
      exists cd, p. auto.
    + intros a Ha. destruct (Hacct a Ha) as [cd [l [H1 [H2 H3]]]].
      exists cd, l. auto.
  - split.
    + intros Hs. destruct (Hpin Hs) as [cd [p [H1 [H2 H3]]]].
      exists cd, p. auto.
    + intros a Ha. destruct (Hacct a Ha) as [cd [l [H1 [H2 H3]]]].
      exists cd, l. auto.
  - split.
    + intros [Hx | Hx]; discriminate.
    + intros a Ha. rewrite Hnone in Ha; [discriminate | rewrite Hst; discriminate].
  - split.
    + intros _. exists card, pin. auto.
    + intros a Ha. rewrite Hnone in Ha; [discriminate | rewrite Hst; discriminate].
  - split.
    + intros _. destruct (Hpin (or_introl Hst)) as [cd [p [H1 [H2 H3]]]].
      exists cd, p. auto.
    + intros a' Ha'. injection Ha' as <-. exists card, listed. auto.
  - split.
    + intros [Hx | Hx]; discriminate.
    + intros a Ha. discriminate.
Qed.

Lemma session_backed_runs (ops : list Op) (b : B) (h : H) :
  session_backed (atm (run_ops ops (start b h))) (run_calls ops (start b h)).
Proof.
  apply (run_invariant session_backed
           (fun c calls c' past => session_backed_step c c' calls past) ops (start b h) []).
  split; [exact init_invariant | split].
  - simpl. intros [Hx | Hx]; discriminate.
  - simpl. intros a Ha. discriminate.
Qed.

(** X8. The log only grows, and by at most one record for each operation:
    after any operations the log is the log before followed by at most as
    many records as operations were called.  Ejecting the card does not
    clear it. *)
Theorem log_only_grows (ops : list Op) (w : World B H) :
  exists l,
    transaction_history (atm (run_ops ops w)) = transaction_history (atm w) ++ l
    /\ (length l <= length ops)%nat.
Proof.
  revert w. induction ops as [|op ops IH]; intros w.
  - exists []. simpl. rewrite app_nil_r. split; [reflexivity | lia].
  - change (run_ops (op :: ops) w) with (run_ops ops (after (exec op w))).
    destruct (IH (after (exec op w))) as [l [Hl Hlen]].
    destruct (step_kind_log _ _ _ (proj1 (exec_step op w))) as [l1 [Hl1 [Hlen1 _]]].
    exists (l1 ++ l). rewrite Hl, Hl1, app_assoc, length_app. simpl. split; [reflexivity | lia].
Qed.

(** X9. Every record the controller has written, from the controller as
    built on, is well formed: its account is a string that is not empty, an
    inquiry has amount 0 and succeeded, and a withdrawal has a positive
    amount. *)
Theorem log_records_well_formed (ops : list Op) (b : B) (h : H) :
  Forall well_formed_record (transaction_history (atm (run_ops ops (start b h)))).
Proof.
  assert (Hgen : forall (w : World B H),
             Forall well_formed_record (transaction_history (atm w)) ->
             Forall well_formed_record (transaction_history (atm (run_ops ops w)))).
  { induction ops as [|op ops IH]; intros w Hw; [exact Hw |].
    change (run_ops (op :: ops) w) with (run_ops ops (after (exec op w))).
    apply IH.
    destruct (step_kind_log _ _ _ (proj1 (exec_step op w))) as [l [Hl [_ [Hwf _]]]].
    rewrite Hl. apply Forall_app. split; assumption. }
  apply Hgen. simpl. constructor.
Qed.

(** X10. No session gets past the PIN without the ledger: after any
    operations from the controller as built, if the state is [PIN_VERIFIED]
    or [ACCOUNT_SELECTED] then among the calls made so far there is a
    [verify_pin] for the card now inserted that the ledger answered [True]. *)
Theorem pin_verified_by_ledger (ops : list Op) (b : B) (h : H) :
  state (atm (run_ops ops (start b h))) = PIN_VERIFIED
  \/ state (atm (run_ops ops (start b h))) = ACCOUNT_SELECTED ->
  exists card pin,
    current_card (atm (run_ops ops (start b h))) = Some card
    /\ card <> ""
    /\ In (CallVerifyPin card pin true) (run_calls ops (start b h)).
Proof.
  intros Hst. destruct (session_backed_runs ops b h) as [_ [Hpin _]]. exact (Hpin Hst).
Qed.

(** X11. The selected account is always one the ledger listed for the card
    now inserted: after any operations from the controller as built, if
    [selected_account] is [a] then among the calls made so far there is a
    [get_accounts] for the current card whose answer lists an account with
    number [a]. *)
Theorem selected_account_was_listed (ops : list Op) (b : B) (h : H) (a : string) :
  selected_account (atm (run_ops ops (start b h))) = Some a ->
  exists card listed,
    current_card (atm (run_ops ops (start b h))) = Some card
    /\ In (CallGetAccounts card listed) (run_calls ops (start b h))
    /\ In a (map number listed).
Proof.
  intros Hsel. destruct (session_backed_runs ops b h) as [_ [_ Hacct]]. exact (Hacct a Hsel).
Qed.

(** X12. Every call an operation makes stays within the session: the ledger
    is asked about the inserted card only ([verify_pin] in [CARD_INSERTED],
    [get_accounts] in [PIN_VERIFIED]) and about the selected account only
    ([get_balance], [withdraw], [deposit], all in [ACCOUNT_SELECTED]); debits
    and dispensed amounts are positive; cash is accepted in
    [ACCOUNT_SELECTED] only. *)
Theorem calls_stay_in_session (op : Op) (w : World B H) (call : Call) :
  In call (trace (exec op w)) -> call_allowed (atm w) call.
Proof.
  exact (proj2 (exec_step op w) call).
Qed.

End RunInvariants.

(** ** Authentication and account selection *)

Section Authentication.

Import ATMController.

Context {B H : Type}.
Context {bank : BankSystemInterface.t B} {hw : HardwareInterface.t H}.

Lemma existsb_number (a : string) (l : list Account) :
  existsb (fun account => (number account =? a)%string) l = true <-> In a (map number l).
Proof.
  rewrite existsb_exists. split.
  - intros [account [Hin Heq]]. apply String.eqb_eq in Heq. subst a. apply in_map. exact Hin.
  - intros Hin. apply in_map_iff in Hin. destruct Hin as [account [Heq Hin]].
    exists account. split; [exact Hin | apply String.eqb_eq; exact Heq].
Qed.

(** X13. With a card inserted, [enter_pin] asks the ledger once, about that
    card and the pin given, and returns its answer.  On [True] the state
    becomes [PIN_VERIFIED] and nothing else changes in the controller; on
    [False] the controller is as before, so the pin can be tried again. *)
Theorem enter_pin_follows_ledger (w : World B H) (card pin : string) :
  state (atm w) = CARD_INSERTED ->
  current_card (atm w) = Some card ->
  card <> "" ->
  let answer := fst (BankSystemInterface.verify_pin card pin (bank_system w)) in
  result (enter_pin pin w) = answer
  /\ trace (enter_pin pin w) = [CallVerifyPin card pin answer]
  /\ atm (after (enter_pin pin w)) =
       (if answer
        then mkATM PIN_VERIFIED (Some card) (selected_account (atm w))
               (transaction_history (atm w))
        else atm w)
  /\ hardware (after (enter_pin pin w)) = hardware w.
Proof.
  intros Hst Hcard Hne. rewrite (enter_pin_run w card pin Hst Hcard Hne).
  repeat split; reflexivity.
Qed.

(** X14. With a verified card, [select_account] asks the ledger once for the
    card's accounts and returns [True] exactly when one of them has the
    number asked for.  It then stores the number and moves to
    [ACCOUNT_SELECTED]; otherwise the controller is as before. *)
Theorem select_account_iff_listed (w : World B H) (card a : string) :
  state (atm w) = PIN_VERIFIED ->
  current_card (atm w) = Some card ->
  card <> "" ->
  let listed := fst (BankSystemInterface.get_accounts card (bank_system w)) in
  (result (select_account a w) = true <-> In a (map number listed))
  /\ trace (select_account a w) = [CallGetAccounts card listed]
  /\ (result (select_account a w) = true ->
      atm (after (select_account a w)) =
        mkATM ACCOUNT_SELECTED (Some card) (Some a) (transaction_history (atm w)))
  /\ (result (select_account a w) = false -> atm (after (select_account a w)) = atm w).
Proof.
  intros Hst Hcard Hne. rewrite (select_account_run w card a Hst Hcard Hne).
  cbn [result after trace atm].
  split; [apply existsb_number | split; [reflexivity | split]]; intros Hr; rewrite Hr;
    reflexivity.
Qed.

(** X15. [insert_card] takes any string, the empty one too.  With the empty
    string inserted every operation but ejection is rejected without a call
    on the ledger or the hardware: the guards take the empty card for no
    card, and [insert_card] itself is rejected since the state is no longer
    [IDLE]. *)
Theorem empty_card_is_stuck (w : World B H) (op : Op) :
  state (atm w) = IDLE ->
  is_eject op = false ->
  result (insert_card "" w) = true
  /\ state (atm (after (insert_card "" w))) = CARD_INSERTED
  /\ current_card (atm (after (insert_card "" w))) = Some ""
  /\ exec op (after (insert_card "" w)) = mkRun (failure op) (after (insert_card "" w)) [].
Proof.
  intros Hst Hop. destruct w as [[st card sel log] b h]. simpl in Hst. subst st.
  unfold insert_card, ATMController.bind, ATMController.ret, get_self. simpl.
  repeat split. apply rejected_exec; [exact Hop |].
  destruct op; try discriminate Hop; reflexivity.
Qed.

End Authentication.

(** ** The controller on the mocks *)

Section OnTheMocks.

Import ATMController.

Lemma balance_of_account (a : string) (d : MockBankSystem.state) (b : Z) :
  MockBankSystem.balance_of a d = Some b ->
  exists account, In account (ledger_accounts d) /\ number account = a /\ balance account = b.
Proof.
  induction d as [|[card cd] rest IH]; simpl; intros Hb; [discriminate |].
  destruct (MockBankSystem.balance_in a (MockBankSystem.accounts cd)) as [b0|] eqn:E.
  - injection Hb as <-.
    assert (Hin : exists account, In account (MockBankSystem.accounts cd)
                                  /\ number account = a /\ balance account = b0).
    { clear IH. induction (MockBankSystem.accounts cd) as [|x l IHl]; simpl in E;
        [discriminate |].
      destruct (number x =? a)%string eqn:Ex.
      - injection E as <-. exists x. apply String.eqb_eq in Ex. simpl. auto.
      - destruct (IHl E) as [y [Hy Hrest]]. exists y. simpl. auto. }
    destruct Hin as [y [Hy Hrest]]. exists y.
    split; [apply in_or_app; left; exact Hy | exact Hrest].
  - destruct (IH Hb) as [y [Hy Hrest]]. exists y.
    split; [apply in_or_app; right; exact Hy | exact Hrest].
Qed.

Section AnyHardware.

Context {H : Type} {hw : HardwareInterface.t H}.

(** X16. No lockout and no trace of a refused pin: on the mock ledger, with
    a card inserted, any number of [enter_pin] calls with pins the ledger
    refuses leave the whole world as it was, and a pin the ledger accepts is
    accepted after them. *)
Theorem refused_pins_change_nothing
  (w : World MockBankSystem.state H) (card : string) (pins : list string) (pin : string) :
  state (atm w) = CARD_INSERTED ->
  current_card (atm w) = Some card ->
  card <> "" ->
  forallb (fun p => negb (fst (MockBankSystem.verify_pin card p (bank_system w)))) pins = true ->
  fst (MockBankSystem.verify_pin card pin (bank_system w)) = true ->
  run_ops (map OpEnterPin pins) w = w
  /\ result (enter_pin pin (run_ops (map OpEnterPin pins) w)) = true
  /\ state (atm (run_ops (map OpEnterPin pins ++ [OpEnterPin pin]) w)) = PIN_VERIFIED.
Proof.
  intros Hst Hcard Hne Hpins Hpin.
  assert (Hsame : run_ops (map OpEnterPin pins) w = w).
  { induction pins as [|p pins IH]; [reflexivity |].
    simpl in Hpins. apply andb_true_iff in Hpins. destruct Hpins as [Hp Hrest].
    apply negb_true_iff in Hp.
    change (run_ops (map OpEnterPin (p :: pins)) w)
      with (run_ops (map OpEnterPin pins) (after (exec (OpEnterPin p) w))).
    destruct (exec_after_trace (OpEnterPin p) w) as [Ha _]. rewrite Ha.
    rewrite (enter_pin_run w card p Hst Hcard Hne). cbn [after].
    change (BankSystemInterface.verify_pin card p (bank_system w))
      with (MockBankSystem.verify_pin card p (bank_system w)).
    rewrite Hp, mock_verify_pin_pure.
    destruct w as [c b h]. exact (IH Hrest). }
  split; [exact Hsame | split].
  - rewrite Hsame. rewrite (enter_pin_run w card pin Hst Hcard Hne). cbn [result].
    exact Hpin.
  - replace (run_ops (map OpEnterPin pins ++ [OpEnterPin pin]) w)
      with (run_ops [OpEnterPin pin] (run_ops (map OpEnterPin pins) w))
      by (unfold run_ops; rewrite fold_left_app; reflexivity).
    rewrite Hsame.
    change (run_ops [OpEnterPin pin] w) with (after (exec (OpEnterPin pin) w)).
    destruct (exec_after_trace (OpEnterPin pin) w) as [Ha _]. rewrite Ha.
    rewrite (enter_pin_run w card pin Hst Hcard Hne). cbn [after atm].
    change (BankSystemInterface.verify_pin card pin (bank_system w))
      with (MockBankSystem.verify_pin card pin (bank_system w)).
    rewrite Hpin. reflexivity.
Qed.

(** X17. The withdrawal that pays out: on the mock ledger with distinct
    account numbers, when the amount is positive and at most the balance
    reported for the selected account and the dispenser answers [True],
    [withdraw] returns [True] with the old balance less the amount, which is
    what the ledger reports afterwards, and appends one successful
    Withdrawal record. *)
Theorem withdraw_pays_out (w : World MockBankSystem.state H) (acct : string) (amount : Z) :
  guard_passes (atm w) acct amount ->
  MockBankSystem.unique_numbers (bank_system w) = true ->
  amount <= fst (MockBankSystem.get_balance acct (bank_system w)) ->
  fst (HardwareInterface.dispense_cash amount (hardware w)) = true ->
  let old := fst (MockBankSystem.get_balance acct (bank_system w)) in
  result (withdraw amount w) = (true, Some (old - amount))
  /\ fst (MockBankSystem.get_balance acct (bank_system (after (withdraw amount w)))) =
       old - amount
  /\ atm (after (withdraw amount w)) = logged (atm w) (mkTx WITHDRAWAL acct amount true)
  /\ trace (withdraw amount w) =
       [CallWithdraw acct amount true; CallDispenseCash amount true;
        CallGetBalance acct (old - amount)].
Proof.
  intros Hg Hu Hle Hcash. cbv zeta.
  assert (Hdebit : fst (MockBankSystem.withdraw acct amount (bank_system w)) = true).
  { destruct Hg as [_ [_ [_ Hn]]].
    unfold MockBankSystem.withdraw. destruct (amount <=? 0) eqn:En;
      [apply Z.leb_le in En; lia |].
    destruct (MockBankSystem.debit acct amount (bank_system w)) as [d'|] eqn:Ed;
      [reflexivity |].
    exfalso. unfold MockBankSystem.get_balance in Hle.
    destruct (MockBankSystem.balance_of acct (bank_system w)) as [b|] eqn:Eb;
      simpl in Hle; [| lia].
    destruct (balance_of_account acct _ b Eb) as [y [Hy [Hnum Hbal]]].
    pose proof (debit_missed acct amount _ Ed y Hy Hnum). lia. }
  pose proof (debited_balance acct amount (bank_system w) Hu Hdebit) as Hnew.
  pose proof (withdraw_spec w amount) as Ho.
  remember (withdraw amount w) as r eqn:Er.
  destruct Ho as [Hrej | a b1 Hg' Hd | a b1 h1 bal b2 Hg' Hd Hc Hb
                 | a b1 h1 ok b2 Hg' Hd Hc Hb];
    cbn [result after trace atm bank_system].
  - exfalso. destruct Hg as [Hst [Hsel [Hne Hn]]]. simpl in Hrej.
    rewrite Hst, Hsel in Hrej. simpl in Hrej.
    apply String.eqb_neq in Hne. rewrite Hne in Hrej. simpl in Hrej.
    apply Z.ltb_ge in Hrej. lia.
  - exfalso. assert (a = acct) by (destruct Hg as [_ [Hs _]], Hg' as [_ [Hs' _]]; congruence).
    subst a. change (MockBankSystem.withdraw acct amount (bank_system w) = (false, b1)) in Hd.
    rewrite Hd in Hdebit. discriminate.
  - assert (a = acct) by (destruct Hg as [_ [Hs _]], Hg' as [_ [Hs' _]]; congruence).
    subst a. change (MockBankSystem.withdraw acct amount (bank_system w) = (true, b1)) in Hd.
    change (MockBankSystem.get_balance acct b1 = (bal, b2)) in Hb.
    rewrite Hd in Hnew. cbn [snd] in Hnew. rewrite Hb in Hnew. cbn [fst] in Hnew.
    assert (Hb2 : b2 = b1).
    { pose proof (mock_get_balance_pure acct b1) as Hp. rewrite Hb in Hp. exact Hp. }
    subst b2 bal. rewrite Hb. repeat split; reflexivity.
  - exfalso. rewrite Hc in Hcash. discriminate.
Qed.

End AnyHardware.

Section AnyLedger.

Context {B : Type} {bank : BankSystemInterface.t B}.

(** X18. With [MockHardware] the rollback of [withdraw] never runs: every
    time the dispenser is asked it answers [True], since the amount is
    positive, and no credit is asked of the ledger, whatever the ledger. *)
Theorem mock_hardware_never_compensates
  (w : World B MockHardware.state) (amount : Z) (call : Call) :
  In call (trace (withdraw amount w)) ->
  match call with
  | CallDeposit _ _ _ => False
  | CallDispenseCash _ answer => answer = true
  | _ => True
  end.
Proof.
  intros Hin.
  pose proof (withdraw_spec w amount) as Ho.
  remember (withdraw amount w) as r eqn:Er.
  destruct Ho as [Hrej | a b1 Hg Hd | a b1 h1 bal b2 Hg Hd Hc Hb
                 | a b1 h1 ok b2 Hg Hd Hc Hb];
    cbn [trace] in Hin.
  - contradiction.
  - destruct Hin as [<- | []]. exact I.
  - destruct Hin as [<- | [<- | [<- | []]]]; try exact I. reflexivity.
  - exfalso. destruct Hg as [_ [_ [_ Hn]]].
    change (MockHardware.dispense_cash amount (hardware w) = (false, h1)) in Hc.
    unfold MockHardware.dispense_cash in Hc. injection Hc as Hc _.
    apply Z.gtb_lt in Hn. congruence.
Qed.

End AnyLedger.

(** X19. On the two mocks a deposit is always 100.  In [ACCOUNT_SELECTED],
    for a selected account the ledger has and whatever positive amount is
    asked for: when the account's number is not the empty string, [deposit]
    credits 100, returns the old balance plus 100 and records 100; when it
    is the empty string, [deposit] is rejected at its guard, returns
    [(False, None)], makes no call and changes nothing. *)
Theorem deposit_on_mocks_is_100
  (w : World MockBankSystem.state MockHardware.state) (acct : string) (amount : Z) :
  state (atm w) = ACCOUNT_SELECTED ->
  selected_account (atm w) = Some acct ->
  In acct (MockBankSystem.all_numbers (bank_system w)) ->
  0 < amount ->
  let old := fst (MockBankSystem.get_balance acct (bank_system w)) in
  (acct <> "" ->
   result (deposit amount w) = (true, Some (old + 100))
   /\ atm (after (deposit amount w)) = logged (atm w) (mkTx DEPOSIT acct 100 true)
   /\ trace (deposit amount w) =
        [CallAcceptCash 100; CallDeposit acct 100 true; CallGetBalance acct (old + 100)]
   /\ fst (MockBankSystem.get_balance acct (bank_system (after (deposit amount w)))) =
        old + 100)
  /\ (acct = "" -> deposit amount w = mkRun (false, None) w []).
Proof.
  intros Hst Hsel Hin Hn. cbv zeta. split.
  - intros Hne.
    destruct (credited_balance acct 100 (bank_system w) ltac:(lia) Hin) as [Hok Hnew].
    pose proof (deposit_spec w amount) as Ho.
    remember (deposit amount w) as r eqn:Er.
    destruct Ho as [Hrej | a n h1 b1 bal b2 Hg' Ha Hd Hb | a n h1 b1 Hg' Ha Hd];
      cbn [result after trace atm bank_system].
    + exfalso. simpl in Hrej. rewrite Hst, Hsel in Hrej. simpl in Hrej.
      apply String.eqb_neq in Hne. rewrite Hne in Hrej. simpl in Hrej.
      apply Z.ltb_ge in Hrej. lia.
    + assert (a = acct) by (destruct Hg' as [_ [Hs' _]]; congruence).
      subst a. change (MockHardware.accept_cash (hardware w) = (n, h1)) in Ha.
      unfold MockHardware.accept_cash in Ha. injection Ha as <- _.
      change (MockBankSystem.deposit acct 100 (bank_system w) = (true, b1)) in Hd.
      change (MockBankSystem.get_balance acct b1 = (bal, b2)) in Hb.
      rewrite Hd in Hnew. cbn [snd] in Hnew. rewrite Hb in Hnew. cbn [fst] in Hnew.
      assert (Hb2 : b2 = b1).
      { pose proof (mock_get_balance_pure acct b1) as Hp. rewrite Hb in Hp. exact Hp. }
      subst b2 bal. rewrite Hb. repeat split; reflexivity.
    + exfalso.
      assert (a = acct) by (destruct Hg' as [_ [Hs' _]]; congruence).
      subst a. change (MockHardware.accept_cash (hardware w) = (n, h1)) in Ha.
      unfold MockHardware.accept_cash in Ha. injection Ha as <- _.
      change (MockBankSystem.deposit acct 100 (bank_system w) = (false, b1)) in Hd.
      rewrite Hd in Hok. discriminate.
  - intros Hempty. subst acct. apply rejected_deposit.
    simpl. rewrite Hst, Hsel. reflexivity.
Qed.

End OnTheMocks.

(** ** Logging in on the mock ledger *)

Section Login.

Import ATMController.

Context {H : Type} {hw : HardwareInterface.t H}.

(** X20. From [IDLE] on the mock ledger, inserting a card, entering a pin
    and selecting an account ends in [ACCOUNT_SELECTED] exactly when the card
    number is not empty, the ledger knows the card, the pin is the card's and
    the account is one of the card's.  The ledger is as before either way. *)
Theorem mock_login (w : World MockBankSystem.state H) (card pin account : string) :
  state (atm w) = IDLE ->
  (state (atm (run_ops [OpInsertCard card; OpEnterPin pin; OpSelectAccount account] w))
     = ACCOUNT_SELECTED
   <-> card <> ""
       /\ exists cd,
            MockBankSystem.lookup card (bank_system w) = Some cd
            /\ MockBankSystem.pin cd = pin
            /\ In account (map number (MockBankSystem.accounts cd)))
  /\ bank_system (run_ops [OpInsertCard card; OpEnterPin pin; OpSelectAccount account] w)
       = bank_system w.
Proof.
  intros Hst. destruct w as [[st c0 sel log] b h]. simpl in Hst. subst st.
  change (run_ops [OpInsertCard card; OpEnterPin pin; OpSelectAccount account]
            (mkWorld (mkATM IDLE c0 sel log) b h))
    with (after (exec (OpSelectAccount account)
                   (after (exec (OpEnterPin pin)
                             (mkWorld (mkATM CARD_INSERTED (Some card) sel log) b h))))).
  destruct (string_dec card "") as [Hempty | Hne].
  - (* the empty card: both calls are rejected *)
    subst card.
    rewrite (rejected_exec (OpEnterPin pin)
      (mkWorld (mkATM CARD_INSERTED (Some "") sel log) b h) eq_refl eq_refl).
    cbn [after].
    simpl.
    split; [| reflexivity].
    split; [discriminate | intros [Hn _]; contradiction Hn; reflexivity].
  - destruct (exec_after_trace (OpEnterPin pin)
      (mkWorld (mkATM CARD_INSERTED (Some card) sel log) b h)) as [Ha _].
    rewrite Ha. clear Ha.
    rewrite (enter_pin_run
      (mkWorld (mkATM CARD_INSERTED (Some card) sel log) b h) card pin eq_refl eq_refl Hne).
    cbn [after atm bank_system hardware state current_card selected_account
           transaction_history].
    change (BankSystemInterface.verify_pin card pin b)
      with (MockBankSystem.verify_pin card pin b).
    rewrite mock_verify_pin_pure.
    unfold MockBankSystem.verify_pin.
    destruct (MockBankSystem.lookup card b) as [cd|] eqn:El; cbn [fst].
    2:{ (* unknown card *)
        rewrite ?(rejected_exec (OpSelectAccount account)
                    (mkWorld (mkATM CARD_INSERTED (Some card) sel log) b h)
                    eq_refl eq_refl).
        simpl.
        split; [| reflexivity].
        split; [discriminate | intros [_ [cd [Hcd _]]]; discriminate]. }
    destruct (MockBankSystem.pin cd =? pin)%string eqn:Ep.
    2:{ (* wrong pin *)
        rewrite ?(rejected_exec (OpSelectAccount account)
                    (mkWorld (mkATM CARD_INSERTED (Some card) sel log) b h)
                    eq_refl eq_refl).
        simpl.
        split; [| reflexivity].
        split; [discriminate |]. intros [_ [cd' [Hcd [Hpin _]]]].
        injection Hcd as <-. apply String.eqb_neq in Ep. contradiction. }
    apply String.eqb_eq in Ep.
    destruct (exec_after_trace (OpSelectAccount account)
      (mkWorld (mkATM PIN_VERIFIED (Some card) sel log) b h)) as [Ha _].
    rewrite Ha. clear Ha.
    rewrite (select_account_run
      (mkWorld (mkATM PIN_VERIFIED (Some card) sel log) b h) card account eq_refl eq_refl Hne).
    cbn [after atm bank_system hardware state current_card selected_account
           transaction_history].
    change (BankSystemInterface.get_accounts card b)
      with (MockBankSystem.get_accounts card b).
    rewrite mock_get_accounts_pure.
    split; [| reflexivity].
    unfold MockBankSystem.get_accounts. rewrite El. cbn [fst].
    destruct (existsb (fun a => (number a =? account)%string) (MockBankSystem.accounts cd))
      eqn:Ef.
    + split; [intros _ | reflexivity].
      split; [exact Hne |]. exists cd. apply existsb_number in Ef. auto.
    + split; [discriminate |]. intros [_ [cd' [Hcd [_ Hin]]]].
      injection Hcd as <-. apply existsb_number in Hin. congruence.
Qed.

(** X21. The reader of [MockHardware] never holds a card: the controller
    keeps the card it is given to itself, so after any operations from the
    controller as built on [MockHardware], whatever the ledger, [read_card]
    answers [None]. *)
Theorem mock_reader_is_empty
  {B : Type} {bank : BankSystemInterface.t B} (ops : list Op) (b : B) :
  fst (MockHardware.read_card (hardware (run_ops ops (start b MockHardware.init)))) = None.
Proof.
  assert (Hgen : forall (w : World B MockHardware.state),
             MockHardware.card_inserted (hardware w) = false ->
             MockHardware.card_inserted (hardware (run_ops ops w)) = false).
  { induction ops as [|op ops IH]; intros w Hw; [exact Hw |].
    change (run_ops (op :: ops) w) with (run_ops ops (after (exec op w))).
    apply IH.
    destruct (is_eject op) eqn:Hop.
    - assert (Hrun : after (exec op w) = after (eject_card w)).
      { pose proof (exec_after_trace op w) as Hx.
        destruct op; try discriminate Hop; exact (proj1 Hx). }
      rewrite Hrun. destruct w as [c bk hd].
      unfold eject_card, ATMController.bind, ATMController.ret. reflexivity.
    - destruct (precondition op (atm w)) eqn:Hpre;
        [| rewrite (rejected_exec op w Hop Hpre); exact Hw].
      pose proof (exec_after_trace op w) as Hx.
      destruct op; try discriminate Hop; destruct Hx as [Ha _]; rewrite Ha; clear Ha;
        simpl in Hpre.
      + destruct w as [[st cd sel log] bk hd].
        unfold insert_card, ATMController.bind, ATMController.ret, get_self; simpl.
        destruct (ATMState_eqb st IDLE); exact Hw.
      + destruct (guard_found _ _ _ Hpre) as [Hst [cd [Hcard Hne]]].
        rewrite (enter_pin_run w cd pin Hst Hcard Hne). exact Hw.
      + destruct (guard_found _ _ _ Hpre) as [Hst [cd [Hcard Hne]]].
        rewrite (get_available_accounts_run w cd Hst Hcard Hne). exact Hw.
      + destruct (guard_found _ _ _ Hpre) as [Hst [cd [Hcard Hne]]].
        rewrite (select_account_run w cd account_number Hst Hcard Hne). exact Hw.
      + destruct (guard_found _ _ _ Hpre) as [Hst [a [Hsel Hne]]].
        rewrite (check_balance_run w a Hst Hsel Hne). exact Hw.
      + pose proof (withdraw_spec w amount) as Ho.
        remember (withdraw amount w) as r eqn:Er.
        destruct Ho as [Hrej | a b1 Hg Hd | a b1 h1 bal b2 Hg Hd Hc Hb
                       | a b1 h1 ok b2 Hg Hd Hc Hb];
          cbn [after hardware]; try exact Hw;
          change (MockHardware.dispense_cash amount (hardware w) = (true, h1)) in Hc
          || change (MockHardware.dispense_cash amount (hardware w) = (false, h1)) in Hc;
          unfold MockHardware.dispense_cash in Hc; injection Hc as _ <-; exact Hw.
      + pose proof (deposit_spec w amount) as Ho.
        remember (deposit amount w) as r eqn:Er.
        destruct Ho as [Hrej | a n h1 b1 bal b2 Hg Ha Hd Hb | a n h1 b1 Hg Ha Hd];
          cbn [after hardware]; try exact Hw;
          change (MockHardware.accept_cash (hardware w) = (n, h1)) in Ha;
          unfold MockHardware.accept_cash in Ha; injection Ha as _ <-; exact Hw. }
  unfold MockHardware.read_card. cbn [fst]. rewrite Hgen; reflexivity.
Qed.

End Login.

(** ** Concrete runs of the further properties *)

Section FurtherRuns.

Import ATMController.

(** X3 on the mock's own table: 100 taken from or put into account 1001. *)
Lemma mock_stays_solvent_1001 :
  solvent (snd (MockBankSystem.withdraw "1001" 100 MockBankSystem.init)) = true
  /\ solvent (snd (MockBankSystem.deposit "1001" 100 MockBankSystem.init)) = true.
Proof. apply (mock_stays_solvent "1001" 100 MockBankSystem.init). reflexivity. Defined.

(** X4 on the mock's own table: 100 taken from account 1001. *)
Lemma mock_withdraw_balance_1001 :
  fst (MockBankSystem.get_balance "1001"
         (snd (MockBankSystem.withdraw "1001" 100 MockBankSystem.init))) =
    fst (MockBankSystem.get_balance "1001" MockBankSystem.init) - 100
  /\ (forall a', a' <> "1001" ->
        fst (MockBankSystem.get_balance a'
               (snd (MockBankSystem.withdraw "1001" 100 MockBankSystem.init))) =
        fst (MockBankSystem.get_balance a' MockBankSystem.init)).
Proof.
  apply (mock_withdraw_balance "1001" 100 MockBankSystem.init); reflexivity.
Defined.

(** X6 on the mock's own table: 250 put into account 2001 and taken back. *)
Lemma mock_deposit_then_withdraw_2001 :
  MockBankSystem.withdraw "2001" 250
    (snd (MockBankSystem.deposit "2001" 250 MockBankSystem.init)) =
  (true, MockBankSystem.init).
Proof.
  apply (mock_deposit_then_withdraw "2001" 250 MockBankSystem.init).
  - simpl. lia.
  - reflexivity.
Defined.

(** X10 for the session that selected account 1001. *)
Lemma pin_verified_by_ledger_checking :
  exists card pin,
    current_card (atm (run_ops to_checking (start MockBankSystem.init MockHardware.init))) =
      Some card
    /\ card <> ""
    /\ In (CallVerifyPin card pin true)
         (run_calls to_checking (start MockBankSystem.init MockHardware.init)).
Proof.
  apply (pin_verified_by_ledger to_checking MockBankSystem.init MockHardware.init).
  right. reflexivity.
Defined.

(** X11 for the session that selected account 1001. *)
Lemma selected_account_was_listed_checking :
  exists card listed,
    current_card (atm (run_ops to_checking (start MockBankSystem.init MockHardware.init))) =
      Some card
    /\ In (CallGetAccounts card listed)
         (run_calls to_checking (start MockBankSystem.init MockHardware.init))
    /\ In "1001" (map number listed).
Proof.
  apply (selected_account_was_listed to_checking MockBankSystem.init MockHardware.init "1001").
  reflexivity.
Defined.

(** X12 for the debit of a withdrawal of 100 from account 1001. *)
Lemma calls_stay_in_session_debit :
  call_allowed (atm mock_session) (CallWithdraw "1001" 100 true).
Proof.
  apply (calls_stay_in_session (OpWithdraw 100) mock_session).
  simpl. left. reflexivity.
Defined.

(** X13 for card 1234567890 and its pin. *)
Lemma enter_pin_follows_ledger_1234 :
  result (enter_pin "1234"
            (run_ops [OpInsertCard "1234567890"]
               (start MockBankSystem.init MockHardware.init))) = true
  /\ state (atm (after (enter_pin "1234"
                          (run_ops [OpInsertCard "1234567890"]
                             (start MockBankSystem.init MockHardware.init))))) = PIN_VERIFIED.
Proof.
  destruct (enter_pin_follows_ledger
              (run_ops [OpInsertCard "1234567890"]
                 (start MockBankSystem.init MockHardware.init))
              "1234567890" "1234") as [Hr [_ [Ha _]]].
  - reflexivity.
  - reflexivity.
  - discriminate.
  - split; [exact Hr | rewrite Ha; reflexivity].
Defined.

(** X14 for the savings account 1002 of card 1234567890. *)
Lemma select_account_savings :
  result (select_account "1002"
            (run_ops [OpInsertCard "1234567890"; OpEnterPin "1234"]
               (start MockBankSystem.init MockHardware.init))) = true.
Proof.
  destruct (select_account_iff_listed
              (run_ops [OpInsertCard "1234567890"; OpEnterPin "1234"]
                 (start MockBankSystem.init MockHardware.init))
              "1234567890" "1002") as [Hiff _].
  - reflexivity.
  - reflexivity.
  - discriminate.
  - apply Hiff. simpl. right. left. reflexivity.
Defined.

(** X15 on the two mocks: with the empty card inserted, [enter_pin] is
    rejected. *)
Lemma empty_card_rejects_pin :
  exec (OpEnterPin "1234")
    (after (insert_card "" (start MockBankSystem.init MockHardware.init))) =
  mkRun (RBool false)
    (after (insert_card "" (start MockBankSystem.init MockHardware.init))) [].
Proof.
  apply (empty_card_is_stuck (start MockBankSystem.init MockHardware.init) (OpEnterPin "1234"));
    reflexivity.
Defined.

(** X16 for card 1234567890: two refused pins, then the card's pin. *)
Lemma refused_pins_then_1234 :
  run_ops (map OpEnterPin ["0000"; "wrong"])
    (run_ops [OpInsertCard "1234567890"] (start MockBankSystem.init MockHardware.init)) =
  run_ops [OpInsertCard "1234567890"] (start MockBankSystem.init MockHardware.init).
Proof.
  apply (refused_pins_change_nothing
           (run_ops [OpInsertCard "1234567890"]
              (start MockBankSystem.init MockHardware.init))
           "1234567890" ["0000"; "wrong"] "1234").
  - reflexivity.
  - reflexivity.
  - discriminate.
  - reflexivity.
  - reflexivity.
Defined.

(** X17 on the two mocks (scenario B): 100 out of 1000. *)
Lemma withdraw_pays_out_100 :
  result (withdraw 100 mock_session) = (true, Some 900).
Proof.
  destruct (withdraw_pays_out mock_session "1001" 100) as [Hr _].
  - unfold guard_passes. repeat split; try discriminate; try reflexivity; lia.
  - reflexivity.
  - simpl. lia.
  - reflexivity.
  - exact Hr.
Defined.

(** X18 for the dispenser call of a withdrawal of 100 on the two mocks. *)
Lemma mock_dispenser_answers_true :
  match CallDispenseCash 100 true with
  | CallDeposit _ _ _ => False
  | CallDispenseCash _ answer => answer = true
  | _ => True
  end.
Proof.
  apply (mock_hardware_never_compensates mock_session 100 (CallDispenseCash 100 true)).
  simpl. right. left. reflexivity.
Defined.

(** X19 on the two mocks (the demo's deposit of 50): 100 is credited. *)
Lemma deposit_of_50_is_100 :
  result (deposit 50 mock_session) = (true, Some 1100).
Proof.
  destruct (deposit_on_mocks_is_100 mock_session "1001" 50) as [Hcredit _].
  - reflexivity.
  - reflexivity.
  - simpl. left. reflexivity.
  - lia.
  - destruct Hcredit as [Hr _]; [discriminate | exact Hr].
Defined.

(** X20 for card 1234567890, pin 1234, account 1001. *)
Lemma mock_login_checking :
  state (atm (run_ops [OpInsertCard "1234567890"; OpEnterPin "1234"; OpSelectAccount "1001"]
                (start MockBankSystem.init MockHardware.init))) = ACCOUNT_SELECTED
  <-> "1234567890" <> ""
      /\ exists cd,
           MockBankSystem.lookup "1234567890"
             (bank_system (start MockBankSystem.init MockHardware.init)) = Some cd
           /\ MockBankSystem.pin cd = "1234"
           /\ In "1001" (map number (MockBankSystem.accounts cd)).
Proof.
  apply (mock_login (start MockBankSystem.init MockHardware.init)
           "1234567890" "1234" "1001").
  reflexivity.
Defined.

End FurtherRuns.
